(** * DallasEPROM: page protocol engine for 1-Wire EPROM and EEPROM devices

    A shallow embedding of [src/DallasEPROM.cpp] and [src/DallasEPROM.h].

    The 1-Wire transport (the OneWire library) and the Arduino core
    (pins and delays) are collaborators of the library, not part of it.
    They are modelled by a [world]: the answers the bus will give (presence
    pulses, the ROM codes each search pass enumerates, the bytes that
    [read()] delivers) together with the log of everything the library did
    on the bus and on the pins.  A method of the class is a function in the
    state monad over that world; the object's own fields are passed and
    returned explicitly.

    Target: avr-gcc, the toolchain of the Arduino boards the library is
    written for.  [int] and [unsigned int] are 16 bits wide, [char] is
    signed, a [bool] holds [true] or [false] only. *)

From Stdlib Require Import ZArith List Bool String Lia.
Import ListNotations.
Open Scope Z_scope.

(** ** Machine integers *)

(** Conversion to [uint8_t] / [byte]. *)
Definition u8 (z : Z) : Z := z mod 256.

(** Conversion to [unsigned int]. *)
Definition uint (z : Z) : Z := z mod 65536.

(** Conversion of an integer to [bool]: every non-zero value is [true]. *)
Definition bool_of_int (z : Z) : bool := negb (z =? 0).

(** [data[i]] on a [uint8_t*].  Reading past the end of the buffer is
    undefined in C++; the model reads 0 there. *)
Definition byte_at (data : list Z) (i : nat) : Z := u8 (nth i data 0).

(** ** Constants of DallasEPROM.h *)

Definition READSTATUS : Z := 0xAA.
Definition VERIFYRESUME : Z := 0xA5.
Definition WRITESTATUS : Z := 0x55.
Definition READMEMORY : Z := 0xF0.
Definition READMEMORYCRC : Z := 0xC3.
Definition WRITEMEMORY : Z := 0x0F.

Definition CRC_MISMATCH : Z := -1.
Definition INVALID_PAGE : Z := -2.
Definition PAGE_LOCKED : Z := -3.
Definition BAD_INTEGRITY : Z := -4.
Definition COPY_FAILURE : Z := -5.
Definition UNSUPPORTED_DEVICE : Z := -64.
Definition DEVICE_DISCONNECTED : Z := -127.

(** ** The chip table *)

(** [name] is a [const char*]: [None] is the null pointer. *)
Record model_type : Type := {
  id : Z;
  name : option string;
  pages : Z;
  isEPROM : bool
}.

Definition terminator : model_type :=
  {| id := 0; name := None; pages := 0; isEPROM := false |}.

Definition _chip_model_list : list model_type :=
  [ {| id := 0x09; name := Some "DS2502"%string; pages := 4; isEPROM := true |};
    {| id := 0x0B; name := Some "DS2505"%string; pages := 64; isEPROM := true |};
    {| id := 0x14; name := Some "DS2430"%string; pages := 1; isEPROM := false |};
    {| id := 0x2D; name := Some "DS2431"%string; pages := 4; isEPROM := false |};
    {| id := 0x23; name := Some "DS2433"%string; pages := 16; isEPROM := false |};
    terminator ].

(** [_chip_model_list[i]].  An index outside the table is undefined in C++;
    the model reads the terminating entry there. *)
Definition chip (i : Z) : model_type :=
  if i <? 0 then terminator else nth (Z.to_nat i) _chip_model_list terminator.

(** The loop shared by [isSupported], [search] and [setAddress]:
    [while (_chip_model_list[i].id) { if (code == _chip_model_list[i].id)
    <found i>; ++i; }], run on the entries from index [i] on.  The result is
    the index found, or -1 when the loop runs into the entry with id 0. *)
Fixpoint scan_models (table : list model_type) (i : Z) (code : Z) : Z :=
  match table with
  | [] => -1
  | m :: rest =>
      if id m =? 0 then -1
      else if code =? id m then i
      else scan_models rest (i + 1) code
  end.

(** ** The world: bus answers and the log of what was done *)

Inductive event : Type :=
| EvReset
| EvResetSearch
| EvSearch
| EvSelect (rom : list Z)
| EvWrite (v : Z) (power : bool)
| EvRead (v : Z)
| EvDepower
| EvPinMode (pin : Z)
| EvDigitalWrite (pin : Z) (high : bool)
| EvDelayMicroseconds (us : Z)
| EvDelay (ms : Z).

Record world : Type := {
  presence : list bool;     (* what the next calls of reset() return *)
  scans : list (list (list Z)); (* the ROM codes each fresh search pass finds *)
  cursor : list (list Z);   (* what is left of the running search pass *)
  rx : list Z;              (* the bytes the next calls of read() deliver *)
  log : list event          (* everything done so far, oldest first *)
}.

Definition emit (e : event) (w : world) : world :=
  {| presence := presence w; scans := scans w; cursor := cursor w;
     rx := rx w; log := log w ++ [e] |}.

(** ** The state monad over the world *)

Definition M (A : Type) : Type := world -> A * world.

Definition ret {A : Type} (a : A) : M A := fun w => (a, w).

Definition bind {A B : Type} (m : M A) (k : A -> M B) : M B :=
  fun w => let (a, w') := m w in k a w'.

Notation "x <- m ;; k" := (bind m (fun x => k))
  (at level 61, m at next level, right associativity).
Notation "m ;; k" := (bind m (fun _ => k))
  (at level 61, right associativity).

(** ** The OneWire interface, as the library uses it *)

(** [reset()]: true when a device answers with a presence pulse.  A bus with
    nothing left to say is an idle bus: no presence. *)
Definition ow_reset : M bool := fun w =>
  (hd false (presence w),
   emit EvReset {| presence := tl (presence w); scans := scans w;
                   cursor := cursor w; rx := rx w; log := log w |}).

(** [reset_search()]: the next [search] starts a fresh pass. *)
Definition ow_reset_search : M unit := fun w =>
  (tt, emit EvResetSearch {| presence := presence w; scans := tl (scans w);
                             cursor := hd [] (scans w); rx := rx w;
                             log := log w |}).

(** [search(buf)]: [Some rom] when the pass finds a next device, whose ROM
    code is then copied to [buf]; [None] (false, [buf] left as it is) when
    the pass is exhausted. *)
Definition ow_search : M (option (list Z)) := fun w =>
  match cursor w with
  | [] => (None, emit EvSearch w)
  | rom :: rest =>
      (Some rom, emit EvSearch {| presence := presence w; scans := scans w;
                                  cursor := rest; rx := rx w; log := log w |})
  end.

Definition ow_select (rom : list Z) : M unit := fun w =>
  (tt, emit (EvSelect rom) w).

(** [write(v, power)]; [power] defaults to 0. *)
Definition ow_write (v : Z) (power : bool) : M unit := fun w =>
  (tt, emit (EvWrite (u8 v) power) w).

(** [read()]: an idle bus reads as all ones. *)
Definition ow_read : M Z := fun w =>
  let v := u8 (hd 0xFF (rx w)) in
  (v, emit (EvRead v) {| presence := presence w; scans := scans w;
                         cursor := cursor w; rx := tl (rx w); log := log w |}).

(** [read_bytes(buf, count)]: [count] calls of [read()]. *)
Fixpoint ow_read_bytes (count : nat) : M (list Z) :=
  match count with
  | O => ret []
  | S n => b <- ow_read ;; bs <- ow_read_bytes n ;; ret (b :: bs)
  end.

Definition ow_depower : M unit := fun w => (tt, emit EvDepower w).

(** ** The Arduino core *)

Definition pinMode_OUTPUT (pin : Z) : M unit := fun w => (tt, emit (EvPinMode pin) w).
Definition digitalWrite (pin : Z) (high : bool) : M unit :=
  fun w => (tt, emit (EvDigitalWrite pin high) w).
Definition delayMicroseconds (us : Z) : M unit :=
  fun w => (tt, emit (EvDelayMicroseconds us) w).
Definition delay (ms : Z) : M unit := fun w => (tt, emit (EvDelay ms) w).

(** ** The object *)

Record DallasEPROM : Type := {
  _addr : list Z;        (* uint8_t _addr[8] *)
  _progPin : Z;          (* int *)
  _curModelIndex : Z     (* char *)
}.

(** The first byte written after each [select]: the commands issued. *)
Fixpoint commands (l : list event) : list Z :=
  match l with
  | [] => []
  | e :: rest =>
      match e, rest with
      | EvSelect _, EvWrite v _ :: _ => v :: commands rest
      | _, _ => commands rest
      end
  end.

(** The log of sending [data[i]], ..., [data[i + n - 1]]. *)
Definition sent (data : list Z) (i n : nat) : list event :=
  map (fun j => EvWrite (byte_at data j) false) (seq i n).

Definition is_select (e : event) : bool :=
  match e with EvSelect _ => true | _ => false end.

(** How a scratchpad commit starts on the bus: the device is selected, the
    scratchpad-write command is sent with the low and the high byte of
    [address], then the bytes [data[k]], ..., [data[k + n - 1]]. *)
Definition commit_start (self : DallasEPROM) (data : list Z) (k n : nat)
    (address : Z) : list event :=
  [EvReset; EvSelect (_addr self); EvWrite WRITEMEMORY false;
   EvWrite (address mod 256) false; EvWrite (address / 256) false]
  ++ sent data k n.

(** What a computation appends to the log. *)
Definition emitted {A : Type} (m : M A) (w : world) : list event :=
  skipn (List.length (log w)) (log (snd (m w))).

Section Engine.

(** [OneWire::crc8(buf, len)], with [buf[0..len)] passed as a list. *)
Variable crc8 : list Z -> Z.

(** [scratchWrite] compares the pointer [_chip_model_list[i].name] with the
    string literal ["DS2430"].  Whether two literals of the same text are one
    object is left to the compiler; [literals_merged] says which. *)
Variable literals_merged : bool.

Definition name_is_DS2430 (m : model_type) : bool :=
  match name m with
  | Some s => literals_merged && String.eqb s "DS2430"
  | None => false
  end.

(** *** Constructors

    [mem] is the storage the object is constructed in: the constructors
    assign [_wire] and [_progPin] and nothing else, so [_addr] and
    [_curModelIndex] keep what the storage held (zeroes for an object of
    static storage duration, anything for an automatic one). *)
Definition DallasEPROM_1 (mem : DallasEPROM) : DallasEPROM :=
  {| _addr := _addr mem; _progPin := -1; _curModelIndex := _curModelIndex mem |}.

Definition DallasEPROM_2 (mem : DallasEPROM) (progPin : Z) : M DallasEPROM :=
  pinMode_OUTPUT progPin ;;
  digitalWrite progPin false ;;
  ret {| _addr := _addr mem; _progPin := progPin;
         _curModelIndex := _curModelIndex mem |}.

(** Static storage: all fields zero before the constructor runs. *)
Definition static_storage : DallasEPROM :=
  {| _addr := repeat 0 8; _progPin := 0; _curModelIndex := 0 |}.

(** *** Static methods *)

Definition validAddress (deviceAddress : list Z) : bool :=
  u8 (crc8 (firstn 7 deviceAddress)) =? byte_at deviceAddress 7.

Definition isSupported (deviceAddress : list Z) : bool :=
  0 <=? scan_models _chip_model_list 0 (byte_at deviceAddress 0).

(** *** Public methods *)

Definition with_index (self : DallasEPROM) (i : Z) : DallasEPROM :=
  {| _addr := _addr self; _progPin := _progPin self; _curModelIndex := i |}.

Definition with_addr (self : DallasEPROM) (a : list Z) : DallasEPROM :=
  {| _addr := a; _progPin := _progPin self;
     _curModelIndex := _curModelIndex self |}.

(** [while (_wire->search(_addr)) { <scan the table> }] of [search]. *)
Fixpoint search_loop (fuel : nat) (self : DallasEPROM) : M (bool * DallasEPROM) :=
  match fuel with
  | O => ret (false, self)
  | S fuel' =>
      found <- ow_search ;;
      match found with
      | None => ret (false, self)
      | Some rom =>
          let self := with_addr self rom in
          let i := scan_models _chip_model_list 0 (byte_at (_addr self) 0) in
          if 0 <=? i then ret (true, with_index self i)
          else search_loop fuel' self
      end
  end.

Definition search (self : DallasEPROM) : M (bool * DallasEPROM) :=
  let self := with_index self (-1) in
  present <- ow_reset ;;
  if negb present then ret (false, self)
  else
    ow_reset_search ;;
    fun w => search_loop (S (List.length (cursor w))) self w.

Definition getAddress (self : DallasEPROM) : list Z := _addr self.

(** [memcpy(_addr, pAddress, 8)]: [pAddress] points to 8 bytes at least. *)
Definition setAddress (self : DallasEPROM) (pAddress : list Z) : DallasEPROM :=
  let self := with_index self (-1) in
  let self := with_addr self (firstn 8 pAddress) in
  let i := scan_models _chip_model_list 0 (byte_at (_addr self) 0) in
  if 0 <=? i then with_index self i else self.

Definition getDeviceName (self : DallasEPROM) : option string :=
  if 0 <=? _curModelIndex self then name (chip (_curModelIndex self))
  else None.

(** [memcmp(a, b, 8) == 0]. *)
Definition memcmp8_eq (a b : list Z) : bool :=
  forallb (fun i => byte_at a i =? byte_at b i) (seq 0 8).

Fixpoint isConnected_loop (fuel : nat) (self : DallasEPROM) : M bool :=
  match fuel with
  | O => ret false
  | S fuel' =>
      found <- ow_search ;;
      match found with
      | None => ret false
      | Some tmpAddress =>
          if memcmp8_eq (_addr self) tmpAddress then ret true
          else isConnected_loop fuel' self
      end
  end.

Definition isConnected (self : DallasEPROM) : M bool :=
  present <- ow_reset ;;
  if negb present then ret false
  else
    ow_reset_search ;;
    fun w => isConnected_loop (S (List.length (cursor w))) self w.

(** *** Private methods *)

Definition isPageValid (self : DallasEPROM) (page : Z) : bool :=
  if (0 <=? _curModelIndex self) && (page <? pages (chip (_curModelIndex self)))
  then true else false.

Definition isEPROMDevice (self : DallasEPROM) : bool :=
  if (0 <=? _curModelIndex self)
     && Bool.eqb (isEPROM (chip (_curModelIndex self))) true
  then true else false.

(** [for (int i = 0; i < length; i++) _wire->write(data[i]);], with [n]
    iterations to go. *)
Fixpoint scratch_send (data : list Z) (i n : nat) : M unit :=
  match n with
  | O => ret tt
  | S n' => ow_write (byte_at data i) false ;; scratch_send data (S i) n'
  end.

(** [for (int i = 0; i < length; i++) if (_wire->read() != data[i]) return
    BAD_INTEGRITY;]: false when the loop returned from the function. *)
Fixpoint scratch_verify (data : list Z) (i n : nat) : M bool :=
  match n with
  | O => ret true
  | S n' =>
      echo <- ow_read ;;
      if negb (echo =? byte_at data i) then ret false
      else scratch_verify data (S i) n'
  end.

Definition scratchWrite (self : DallasEPROM) (data : list Z) (length : Z)
    (address : Z) : M Z :=
  let model := chip (_curModelIndex self) in
  ow_reset ;;
  ow_select (_addr self) ;;
  ow_write WRITEMEMORY false ;;
  ow_write (u8 address) false ;;
  ow_write (u8 (Z.shiftr address 8)) false ;;
  scratch_send data 0 (Z.to_nat length) ;;
  intact <-
    (if name_is_DS2430 model then
       ow_reset ;;
       ow_select (_addr self) ;;
       ow_write WRITESTATUS false ;;
       ow_write VERIFYRESUME false ;;
       ret true
     else
       ow_reset ;;
       ow_select (_addr self) ;;
       ow_write READSTATUS false ;;
       auth <- ow_read_bytes 3 ;;
       same <- scratch_verify data 0 (Z.to_nat length) ;;
       if negb same then ret false
       else
         ow_reset ;;
         ow_select (_addr self) ;;
         ow_write WRITESTATUS false ;;
         ow_write (nth 0 auth 0) false ;;
         ow_write (nth 1 auth 0) false ;;
         ow_write (nth 2 auth 0) true ;;
         ret true) ;;
  if negb intact then ret BAD_INTEGRITY
  else
    delay 10 ;;
    ow_depower ;;
    failed <-
      (if negb (name_is_DS2430 model) then
         done <- ow_read ;; ret (negb (done =? 0xAA))
       else ret false) ;;
    if failed then ret COPY_FAILURE else ret 0.

(** The programming pulse, where a pin was given. *)
Definition pulse (self : DallasEPROM) : M unit :=
  (if 0 <=? _progPin self then
     digitalWrite (_progPin self) true ;;
     delayMicroseconds 500 ;;
     digitalWrite (_progPin self) false
   else ret tt) ;;
  delayMicroseconds 500.

(** *** Page operations *)

(** [for (int i = 0; i < 32; i++) data[i] = _wire->read();] *)
Definition read_into (data : list Z) : M (list Z) :=
  bytes <- ow_read_bytes 32 ;; ret (bytes ++ skipn 32 data).

(** The status phase of [readPage] on an EPROM: [inl status] when the
    function returns there, [inr address] when it goes on. *)
Definition readPage_redirect (self : DallasEPROM) (page : Z) (address : Z)
    : M (Z + Z) :=
  if isEPROMDevice self then
    let command := [READSTATUS; u8 (page + 1); 0x00] in
    ow_reset ;;
    ow_select (_addr self) ;;
    ow_write (nth 0 command 0) false ;;
    ow_write (nth 1 command 0) false ;;
    ow_write (nth 2 command 0) false ;;
    crc <- ow_read ;;
    if negb (u8 (crc8 command) =? crc) then ret (inl CRC_MISMATCH)
    else
      new_addr <- ow_read ;;
      if negb (new_addr =? 0xFF) then ret (inr new_addr)
      else ret (inr address)
  else ret (inr address).

Definition readPage (self : DallasEPROM) (data : list Z) (page : Z)
    : M (Z * list Z) :=
  let address := uint (page * 32) in
  if negb (isPageValid self page) then ret (INVALID_PAGE, data)
  else
    connected <- isConnected self ;;
    if negb connected then ret (DEVICE_DISCONNECTED, data)
    else
      redirect <- readPage_redirect self page address ;;
      match redirect with
      | inl status => ret (status, data)
      | inr address =>
          let command := [READMEMORY; u8 address; u8 (Z.shiftr address 8)] in
          ow_reset ;;
          ow_select (_addr self) ;;
          ow_write (nth 0 command 0) false ;;
          ow_write (nth 1 command 0) false ;;
          ow_write (nth 2 command 0) false ;;
          mismatch <-
            (if isEPROMDevice self then
               crc <- ow_read ;; ret (negb (u8 (crc8 command) =? crc))
             else ret false) ;;
          if mismatch then ret (CRC_MISMATCH, data)
          else
            data <- read_into data ;;
            ret (0, data)
      end.

(** [for (int i = 0; i < 32; i += 8) if ((status = scratchWrite(&data[i], 8,
    address + i))) return status;] followed by [return 0]. *)
Fixpoint writePage_chunks (fuel : nat) (self : DallasEPROM) (data : list Z)
    (address : Z) (i : Z) : M Z :=
  match fuel with
  | O => ret 0
  | S fuel' =>
      if i <? 32 then
        status <- scratchWrite self (skipn (Z.to_nat i) data) 8
                    (uint (address + i)) ;;
        if negb (status =? 0) then ret status
        else writePage_chunks fuel' self data address (i + 8)
      else ret 0
  end.

(** [for (int i = 1; i < 32; i++) { ... }] of the EPROM path, followed by
    [return 0]. *)
Fixpoint writePage_burn (fuel : nat) (self : DallasEPROM) (data : list Z)
    (i : Z) : M Z :=
  match fuel with
  | O => ret 0
  | S fuel' =>
      if i <? 32 then
        ow_write (byte_at data (Z.to_nat i)) false ;;
        ow_read ;;
        pulse self ;;
        burnt <- ow_read ;;
        if negb (byte_at data (Z.to_nat i) =? burnt) then ret COPY_FAILURE
        else writePage_burn fuel' self data (i + 1)
      else ret 0
  end.

Definition writePage (self : DallasEPROM) (data : list Z) (page : Z) : M Z :=
  let address := uint (page * 32) in
  if negb (isPageValid self page) then ret INVALID_PAGE
  else
    connected <- isConnected self ;;
    if negb connected then ret DEVICE_DISCONNECTED
    else if negb (isEPROMDevice self) then
      writePage_chunks 32 self data address 0
    else
      let command :=
        [WRITEMEMORY; u8 address; u8 (Z.shiftr address 8); byte_at data 0] in
      ow_reset ;;
      ow_select (_addr self) ;;
      ow_write (nth 0 command 0) false ;;
      ow_write (nth 1 command 0) false ;;
      ow_write (nth 2 command 0) false ;;
      ow_write (nth 3 command 0) false ;;
      crc <- ow_read ;;
      if negb (u8 (crc8 command) =? crc) then ret CRC_MISMATCH
      else
        pulse self ;;
        burnt <- ow_read ;;
        if negb (nth 3 command 0 =? burnt) then ret COPY_FAILURE
        else writePage_burn 32 self data 1.

(** [1 << page] on [int], converted to [byte].  A shift by 16 or more is
    undefined on a 16-bit [int]; the model gives the byte of the unbounded
    shift, which is 0 from [page = 8] on. *)
Definition lock_mask (page : Z) : Z := u8 (Z.shiftl 1 page).

Definition lockPage (self : DallasEPROM) (page : Z) : M Z :=
  if negb (isPageValid self page) then ret INVALID_PAGE
  else
    connected <- isConnected self ;;
    if negb connected then ret DEVICE_DISCONNECTED
    else
      ow_reset ;;
      ow_select (_addr self) ;;
      if isEPROMDevice self then
        let command := [WRITESTATUS; 0x00; 0x00; lock_mask page] in
        ow_write (nth 0 command 0) false ;;
        ow_write (nth 1 command 0) false ;;
        ow_write (nth 2 command 0) false ;;
        ow_write (nth 3 command 0) false ;;
        crc <- ow_read ;;
        if negb (u8 (crc8 command) =? crc) then ret CRC_MISMATCH
        else
          pulse self ;;
          ret 0
      else
        let data := [0x55] in
        let start := uint (pages (chip (_curModelIndex self)) * 32 + page) in
        scratchWrite self data 1 start ;;
        ret 0.

(** The function is declared [bool]: each [return] converts its operand.
    [status >> page] on the promoted [int] is undefined for a shift of 16 or
    more; the model gives the unbounded shift there, so what is proved about
    the bit returned is stated for [page < 16] only. *)
Definition isPageLocked (self : DallasEPROM) (page : Z) : M bool :=
  if negb (isPageValid self page) then ret (bool_of_int INVALID_PAGE)
  else
    connected <- isConnected self ;;
    if negb connected then ret (bool_of_int DEVICE_DISCONNECTED)
    else
      ow_reset ;;
      ow_select (_addr self) ;;
      if isEPROMDevice self then
        let command := [READSTATUS; 0x00; 0x00] in
        ow_write (nth 0 command 0) false ;;
        ow_write (nth 1 command 0) false ;;
        ow_write (nth 2 command 0) false ;;
        crc <- ow_read ;;
        if negb (u8 (crc8 command) =? crc) then ret (bool_of_int CRC_MISMATCH)
        else
          status <- ow_read ;;
          ow_reset ;;
          ret (bool_of_int (Z.land 1 (Z.shiftr status page)))
      else
        let start := uint (pages (chip (_curModelIndex self)) * 32 + page) in
        ow_write READMEMORY false ;;
        ow_write (u8 start) false ;;
        ow_write (u8 (Z.shiftr start 8)) false ;;
        sentinel <- ow_read ;;
        if sentinel =? 0x55 then ret true else ret false.

End Engine.

(** ** A concrete bus for the examples *)

(** The Dallas/Maxim CRC-8 (polynomial x^8 + x^5 + x^4 + 1, bit-reflected
    0x8C), the function OneWire documents for [crc8]; it instantiates the
    engine wherever an example needs a concrete checksum. *)
Fixpoint crc8_shift (n : nat) (crc inbyte : Z) : Z :=
  match n with
  | O => crc
  | S n' =>
      let mix := Z.land (Z.lxor crc inbyte) 0x01 in
      let crc := Z.shiftr crc 1 in
      let crc := if mix =? 0 then crc else Z.lxor crc 0x8C in
      crc8_shift n' crc (Z.shiftr inbyte 1)
  end.

Definition dallas_crc8 (buf : list Z) : Z :=
  fold_left (fun crc b => crc8_shift 8 crc (u8 b)) buf 0.

(** A bus on which [reset] always finds [passes] fresh search passes
    enumerating [roms], and whose devices answer [read] with [answers]. *)
Definition bus_with (passes : nat) (roms : list (list Z)) (answers : list Z)
    : world :=
  {| presence := repeat true (2 * passes); scans := repeat roms passes;
     cursor := []; rx := answers; log := [] |}.

(** A bus with nothing attached. *)
Definition idle_bus : world :=
  {| presence := []; scans := []; cursor := []; rx := []; log := [] |}.

Definition rom_DS2502 : list Z := [0x09; 0x11; 0x22; 0x33; 0x44; 0x55; 0x66; 0x0A].
Definition rom_DS2505 : list Z := [0x0B; 0x11; 0x22; 0x33; 0x44; 0x55; 0x66; 0x0C].
Definition rom_DS2431 : list Z := [0x2D; 0x11; 0x22; 0x33; 0x44; 0x55; 0x66; 0x2E].
Definition rom_DS18B20 : list Z := [0x28; 0x11; 0x22; 0x33; 0x44; 0x55; 0x66; 0x29].
Definition rom_DS2401 : list Z := [0x01; 0x11; 0x22; 0x33; 0x44; 0x55; 0x66; 0x02].

(** A session as [setAddress] leaves it, from an object built by the first
    constructor. *)
Definition session_for (rom : list Z) : DallasEPROM :=
  setAddress (DallasEPROM_1 static_storage) rom.

(** A DS2502 that acknowledges the status command for page 1 and answers
    with the redirect byte 0x07. *)
Definition redirecting_bus : world :=
  bus_with 1 [rom_DS2502] [dallas_crc8 [READSTATUS; 2; 0x00]; 0x07].

(** A DS2431 whose scratchpad echoes 0x54 for the sentinel 0x55, after the
    auth bytes 1, 2, 3. *)
Definition corrupting_bus : world :=
  bus_with 1 [rom_DS2431] [0x01; 0x02; 0x03; 0x54].

(** A DS2431 that echoes the eight bytes of each chunk of [page_0_to_31] and
    acknowledges each commit with 0xAA. *)
Definition page_0_to_31 : list Z := map Z.of_nat (seq 0 32).

Definition committing_bus : world :=
  bus_with 1 [rom_DS2431]
    (flat_map (fun k => [0x01; 0x02; 0x03]
                        ++ firstn 8 (skipn k page_0_to_31) ++ [0xAA])
       [0; 8; 16; 24]%nat).

(** The world in which [isConnected] leaves a bus. *)
Definition found (self : DallasEPROM) (w : world) : world :=
  snd (isConnected self w).

(** ** Vocabulary of the further properties *)

(** What [n] calls of [read()] deliver from the answers [rx]. *)
Fixpoint answers (n : nat) (rx : list Z) : list Z :=
  match n with
  | O => []
  | S n' => u8 (hd 0xFF rx) :: answers n' (tl rx)
  end.

(** What the programming pulse of a session puts on the pins. *)
Definition pulse_events (self : DallasEPROM) : list event :=
  (if 0 <=? _progPin self
   then [EvDigitalWrite (_progPin self) true; EvDelayMicroseconds 500;
         EvDigitalWrite (_progPin self) false]
   else [])
  ++ [EvDelayMicroseconds 500].

(** What an EPROM answers while bytes [i], ..., [i + n - 1] of [data] are
    burnt correctly: for each byte an acknowledgement, which the library does
    not look at, then the byte read back. *)
Definition burn_answers (ack : nat -> Z) (data : list Z) (i n : nat) : list Z :=
  flat_map (fun j => [ack j; byte_at data j]) (seq i n).

(** A session is consistent when it is unresolved, or resolved to a table
    entry whose id is the family code of the stored address. *)
Definition session_ok (self : DallasEPROM) : Prop :=
  _curModelIndex self = -1 \/
  (0 <= _curModelIndex self < 5 /\
   id (chip (_curModelIndex self)) = byte_at (_addr self) 0).

(** An 8-byte ROM code. *)
Definition is_rom (a : list Z) : Prop :=
  List.length a = 8%nat /\ Forall (fun b => 0 <= b < 256) a.

(** The bytes [1, 2, ..., 32]. *)
Definition page_1_to_32 : list Z := map Z.of_nat (seq 1 32).

(** A DS2502 that acknowledges the write command of [page_1_to_32] at
    address 0 and reads every byte back as written. *)
Definition burning_bus : world :=
  bus_with 1 [rom_DS2502]
    (dallas_crc8 [WRITEMEMORY; 0x00; 0x00; 0x01] :: 0x01
     :: burn_answers (fun _ => 0x00) page_1_to_32 1 31).

(** A bus that stays as it is for two passes. *)
Definition steady_bus : world :=
  bus_with 2 [rom_DS2401; rom_DS2431; rom_DS2502] [].

Definition rom_DS2430 : list Z := [0x14; 0x11; 0x22; 0x33; 0x44; 0x55; 0x66; 0x15].

(** A DS2502 that burns bytes 0, 1 and 2 of [page_1_to_32] and reads byte 3
    back as 0x00. *)
Definition failing_burn_bus : world :=
  bus_with 1 [rom_DS2502]
    (dallas_crc8 [WRITEMEMORY; 0x00; 0x00; 0x01] :: 0x01
     :: burn_answers (fun _ => 0x00) page_1_to_32 1 2 ++ [0x00; 0x00; 0x77]).

(** A bus whose only device answers [read] with [answers]. *)
Definition bus_answering (rom : list Z) (answers : list Z) : world :=
  bus_with 1 [rom] answers.

(** * Properties *)

(** Case analysis along the control flow of a method. *)
Ltac run_step :=
  match goal with
  | |- context [let (_, _) := ?x in _] => destruct x eqn:?
  | |- context [if ?b then _ else _] => destruct b eqn:?
  | |- context [match ?x with inl _ => _ | inr _ => _ end] => destruct x eqn:?
  end.

(** Runs the bus primitives of a goal without touching the arithmetic. *)
Ltac bus :=
  cbn [negb fst snd ret nth hd tl ow_reset ow_select ow_write ow_read
       ow_depower emit log rx presence scans cursor delay digitalWrite
       delayMicroseconds pinMode_OUTPUT].

(** ** The chip table *)

Lemma scan_models_table (code : Z) :
  scan_models _chip_model_list 0 code =
    if code =? 0x09 then 0 else if code =? 0x0B then 1
    else if code =? 0x14 then 2 else if code =? 0x2D then 3
    else if code =? 0x23 then 4 else -1.
Proof. reflexivity. Qed.

Lemma scan_models_range (code : Z) :
  -1 <= scan_models _chip_model_list 0 code < 5.
Proof. rewrite scan_models_table. repeat run_step; lia. Qed.

Lemma scan_models_found (code : Z) :
  0 <= scan_models _chip_model_list 0 code ->
  id (chip (scan_models _chip_model_list 0 code)) = code.
Proof.
  rewrite scan_models_table.
  repeat run_step; intros H; try lia; cbn; symmetry; apply Z.eqb_eq; assumption.
Qed.

Lemma scan_models_complete (code : Z) (m : model_type) :
  In m _chip_model_list -> id m <> 0 -> id m = code ->
  0 <= scan_models _chip_model_list 0 code.
Proof.
  intros Hin Hnz <-. rewrite scan_models_table.
  simpl in Hin.
  repeat (destruct Hin as [<- | Hin]; [ cbn in *; try lia; congruence | ]).
  contradiction.
Qed.

Lemma chip_pages_positive (i : Z) : 0 <= i < 5 -> 0 < pages (chip i) <= 64.
Proof.
  intros H.
  assert (i = 0 \/ i = 1 \/ i = 2 \/ i = 3 \/ i = 4) as Hi by lia.
  destruct Hi as [-> | [-> | [-> | [-> | ->]]]]; vm_compute;
    (split; [reflexivity | discriminate]).
Qed.

(** ** Sessions *)

(** C8.  [setAddress] stores the eight bytes it is given whatever the
    outcome of the lookup; the session is resolved exactly when the family
    code is the id of a table entry, and then to an entry with that id;
    otherwise the index is -1, whatever it was before. *)
Theorem setAddress_stores_and_resolves self pAddress :
  List.length pAddress = 8%nat ->
  _addr (setAddress self pAddress) = pAddress /\
  (0 <= _curModelIndex (setAddress self pAddress) <->
   exists m, In m _chip_model_list /\ id m <> 0 /\
             id m = byte_at pAddress 0) /\
  (0 <= _curModelIndex (setAddress self pAddress) ->
   _curModelIndex (setAddress self pAddress) < 5 /\
   id (chip (_curModelIndex (setAddress self pAddress))) = byte_at pAddress 0) /\
  (~ 0 <= _curModelIndex (setAddress self pAddress) ->
   _curModelIndex (setAddress self pAddress) = -1 /\
   getDeviceName (setAddress self pAddress) = None).
Proof.
  intros Hlen.
  assert (firstn 8 pAddress = pAddress) as Hall
    by (apply firstn_all2; rewrite Hlen; apply le_n).
  unfold setAddress. cbn [_addr with_addr with_index]. rewrite Hall.
  pose proof (scan_models_range (byte_at pAddress 0)) as Hr.
  pose proof (scan_models_found (byte_at pAddress 0)) as Hf.
  pose proof (scan_models_complete (byte_at pAddress 0)) as Hc.
  set (i := scan_models _chip_model_list 0 (byte_at pAddress 0)) in *.
  destruct (0 <=? i) eqn:E; cbn [_addr _curModelIndex with_addr with_index].
  - apply Z.leb_le in E.
    split; [ reflexivity | ]. split; [ | split ].
    + split; [ | intros _; exact E ].
      intros _. exists (chip i). split; [ | split ].
      * assert (i = 0 \/ i = 1 \/ i = 2 \/ i = 3 \/ i = 4) as Hi by lia.
        destruct Hi as [Hi | [Hi | [Hi | [Hi | Hi]]]]; rewrite Hi;
          cbn; tauto.
      * rewrite Hf by exact E. intro Hz. unfold i in E.
        rewrite scan_models_table in E. rewrite Hz in E. cbn in E. lia.
      * apply Hf, E.
    + intros _. split; [ lia | apply Hf, E ].
    + intros Hn. contradiction.
  - apply Z.leb_gt in E.
    split; [ reflexivity | ]. split; [ | split ].
    + split; [ lia | ].
      intros [m [Hin [Hnz Hid]]]. specialize (Hc m Hin Hnz Hid). lia.
    + lia.
    + intros _. split; [ reflexivity | ].
      unfold getDeviceName. reflexivity.
Qed.

Lemma isSupported_setAddress self pAddress :
  List.length pAddress = 8%nat ->
  isSupported pAddress = true <->
  0 <= _curModelIndex (setAddress self pAddress).
Proof.
  intros Hlen.
  assert (firstn 8 pAddress = pAddress) as Hall
    by (apply firstn_all2; rewrite Hlen; apply le_n).
  unfold isSupported, setAddress. cbn [_addr with_addr with_index].
  rewrite Hall.
  destruct (0 <=? scan_models _chip_model_list 0 (byte_at pAddress 0)) eqn:E;
    cbn [_curModelIndex with_index with_addr].
  - apply Z.leb_le in E. tauto.
  - split; [ discriminate | lia ].
Qed.

(** ** search *)

Lemma last_cons_default {A : Type} (x d : A) (l : list A) :
  last (x :: l) d = last l x.
Proof.
  revert x d. induction l as [|y l IH]; intros x d; [ reflexivity | ].
  change (last (x :: y :: l) d) with (last (y :: l) d).
  rewrite (IH y d), (IH y x). reflexivity.
Qed.

(** The loop of [search], run on a pass that has [devs] left: it stops at the
    first supported device, and otherwise ends with the address of the last
    device it was given. *)
Lemma search_loop_spec (devs : list (list Z)) :
  forall fuel self w,
    cursor w = devs ->
    (List.length devs < fuel)%nat ->
    fst (search_loop fuel self w) =
      match find isSupported devs with
      | Some rom =>
          (true, with_index (with_addr self rom)
                   (scan_models _chip_model_list 0 (byte_at rom 0)))
      | None => (false, with_addr self (last devs (_addr self)))
      end.
Proof.
  induction devs as [|rom rest IH]; intros fuel self w Hcur Hfuel;
    (destruct fuel as [|fuel]; [ inversion Hfuel | ]);
    cbn [search_loop]; unfold bind, ow_search; rewrite Hcur.
  - destruct self; reflexivity.
  - cbn [find]. unfold isSupported at 1.
    cbn [_addr with_addr].
    destruct (0 <=? scan_models _chip_model_list 0 (byte_at rom 0)).
    + reflexivity.
    + rewrite (IH fuel (with_addr self rom)); [ | reflexivity | simpl in *; lia ].
      rewrite last_cons_default.
      destruct (find isSupported rest); reflexivity.
Qed.

Lemma search_spec self w :
  fst (search self w) =
    if hd false (presence w) then
      match find isSupported (hd [] (scans w)) with
      | Some rom =>
          (true, {| _addr := rom; _progPin := _progPin self;
                    _curModelIndex :=
                      scan_models _chip_model_list 0 (byte_at rom 0) |})
      | None =>
          (false, {| _addr := last (hd [] (scans w)) (_addr self);
                     _progPin := _progPin self; _curModelIndex := -1 |})
      end
    else (false, with_index self (-1)).
Proof.
  unfold search, bind, ow_reset, ow_reset_search.
  destruct (hd false (presence w)); cbn [negb]; [ | reflexivity ].
  rewrite (search_loop_spec (hd [] (scans w))); [ | reflexivity | simpl; lia ].
  destruct (find isSupported (hd [] (scans w))); reflexivity.
Qed.

(** C10.  When [search] returns false the index is -1.  If the bus answered
    the reset, every device of the pass was enumerated and found
    unsupported, and the stored address is the ROM code of the last of them,
    not the address stored before; if the pass was empty, or the bus did not
    answer, the address stored before stays. *)
Theorem search_false_keeps_last_enumerated self w :
  fst (fst (search self w)) = false ->
  _curModelIndex (snd (fst (search self w))) = -1 /\
  (hd false (presence w) = true ->
   (forall rom, In rom (hd [] (scans w)) -> isSupported rom = false) /\
   (forall devs rom, hd [] (scans w) = devs ++ [rom] ->
      _addr (snd (fst (search self w))) = rom) /\
   (hd [] (scans w) = [] -> _addr (snd (fst (search self w))) = _addr self)) /\
  (hd false (presence w) = false ->
   _addr (snd (fst (search self w))) = _addr self).
Proof.
  rewrite search_spec.
  destruct (hd false (presence w)).
  - destruct (find isSupported (hd [] (scans w))) eqn:Hfind;
      cbn [fst snd]; intros Hres; [ discriminate | ].
    split; [ reflexivity | ]. split; [ | discriminate ].
    intros _. split; [ | split ].
    + intros rom Hin. exact (find_none _ _ Hfind rom Hin).
    + intros devs rom Heq. cbn [_addr]. rewrite Heq. apply last_last.
    + intros Heq. cbn [_addr]. rewrite Heq. reflexivity.
  - intros _. cbn [fst snd with_index _curModelIndex _addr].
    split; [ reflexivity | ]. split; [ discriminate | reflexivity ].
Qed.

(** What [search] leaves when it returns true: the first supported device of
    the pass and its table index. *)
Lemma search_true_first_supported self w :
  fst (fst (search self w)) = true ->
  exists rom,
    find isSupported (hd [] (scans w)) = Some rom /\
    _addr (snd (fst (search self w))) = rom /\
    _curModelIndex (snd (fst (search self w))) =
      scan_models _chip_model_list 0 (byte_at rom 0).
Proof.
  rewrite search_spec.
  destruct (hd false (presence w)); [ | discriminate ].
  destruct (find isSupported (hd [] (scans w))) as [rom|]; [ | discriminate ].
  intros _. exists rom. repeat split.
Qed.

Section Properties.

Variable crc8 : list Z -> Z.
Variable literals_merged : bool.

(** ** The page validator *)

Lemma isPageValid_iff self page :
  isPageValid self page = true <->
  0 <= _curModelIndex self /\ page < pages (chip (_curModelIndex self)).
Proof.
  unfold isPageValid.
  destruct (0 <=? _curModelIndex self) eqn:Hi;
    destruct (page <? pages (chip (_curModelIndex self))) eqn:Hp; simpl;
    rewrite ?Z.leb_le, ?Z.leb_gt, ?Z.ltb_lt, ?Z.ltb_ge in *;
    split; intros; try discriminate; try lia; auto.
Qed.

Lemma readPage_rejected self data page w :
  isPageValid self page = false ->
  readPage crc8 self data page w = (INVALID_PAGE, data, w).
Proof. intros H. unfold readPage. rewrite H. reflexivity. Qed.

Lemma writePage_rejected self data page w :
  isPageValid self page = false ->
  writePage crc8 literals_merged self data page w = (INVALID_PAGE, w).
Proof. intros H. unfold writePage. rewrite H. reflexivity. Qed.

Lemma lockPage_rejected self page w :
  isPageValid self page = false ->
  lockPage crc8 literals_merged self page w = (INVALID_PAGE, w).
Proof. intros H. unfold lockPage. rewrite H. reflexivity. Qed.

Lemma isPageLocked_rejected self page w :
  isPageValid self page = false ->
  isPageLocked crc8 self page w = (true, w).
Proof. intros H. unfold isPageLocked. rewrite H. reflexivity. Qed.

(** ** The status codes a call can end in *)

Lemma scratchWrite_status self data len address w :
  In (fst (scratchWrite literals_merged self data len address w))
     [BAD_INTEGRITY; COPY_FAILURE; 0].
Proof. unfold scratchWrite, bind. repeat run_step; simpl; auto. Qed.

Lemma writePage_chunks_status fuel : forall self data address i w,
  In (fst (writePage_chunks literals_merged fuel self data address i w))
     [BAD_INTEGRITY; COPY_FAILURE; 0].
Proof.
  induction fuel as [|fuel IH]; intros; simpl; auto.
  destruct (i <? 32); simpl; auto.
  unfold bind.
  pose proof (scratchWrite_status self (skipn (Z.to_nat i) data) 8
                (uint (address + i)) w) as Hs.
  destruct (scratchWrite _ _ _ _ _ _) as [status w1]. simpl in Hs.
  destruct (negb (status =? 0)); [exact Hs | apply IH].
Qed.

Lemma writePage_burn_status fuel : forall self data i w,
  In (fst (writePage_burn fuel self data i w)) [COPY_FAILURE; 0].
Proof.
  induction fuel as [|fuel IH]; intros; simpl; auto.
  destruct (i <? 32); simpl; auto.
  unfold bind.
  repeat (run_step; simpl; auto).
  all: apply IH.
Qed.

Lemma readPage_redirect_status self page address w status w' :
  readPage_redirect crc8 self page address w = (inl status, w') ->
  status = CRC_MISMATCH.
Proof.
  unfold readPage_redirect, bind.
  destruct (isEPROMDevice self); [ | discriminate ].
  bus. destruct (negb (_ =? _)); bus.
  - intros H. inversion H. reflexivity.
  - destruct (negb (_ =? _)); discriminate.
Qed.

Lemma readPage_validated self data page w :
  isPageValid self page = true ->
  fst (fst (readPage crc8 self data page w)) <> INVALID_PAGE.
Proof.
  intros Hv. unfold readPage, bind. rewrite Hv. cbn [negb].
  destruct (isConnected self w) as [[|] w1]; bus; [ | discriminate ].
  destruct (readPage_redirect crc8 self page (uint (page * 32)) w1)
    as [[status|address] w2] eqn:E.
  - apply readPage_redirect_status in E. subst status. discriminate.
  - bus. destruct (isEPROMDevice self); bus.
    + destruct (negb (_ =? _)); bus; [ discriminate | ].
      destruct (read_into data _) as [d w3]. discriminate.
    + destruct (read_into data _) as [d w3]. discriminate.
Qed.

Lemma writePage_validated self data page w :
  isPageValid self page = true ->
  fst (writePage crc8 literals_merged self data page w) <> INVALID_PAGE.
Proof.
  intros Hv. unfold writePage, bind. rewrite Hv. cbn [negb].
  destruct (isConnected self w) as [[|] w1]; bus; [ | discriminate ].
  destruct (isEPROMDevice self); bus.
  - destruct (negb (_ =? _)); bus; [ discriminate | ].
    destruct (pulse self _) as [[] w2].
    bus. destruct (negb (_ =? _)); bus; [ discriminate | ].
    match goal with
    | |- fst (writePage_burn ?f ?s ?d ?i ?w) <> _ =>
        pose proof (writePage_burn_status f s d i w) as Hs
    end.
    intro Hx. rewrite Hx in Hs. cbn [In] in Hs.
    destruct Hs as [Hs | [Hs | []]]; discriminate.
  - pose proof (writePage_chunks_status 32 self data (uint (page * 32)) 0 w1)
      as Hs.
    intro Hx. rewrite Hx in Hs. cbn [In] in Hs.
    destruct Hs as [Hs | [Hs | [Hs | []]]]; discriminate.
Qed.

Lemma lockPage_validated self page w :
  isPageValid self page = true ->
  fst (lockPage crc8 literals_merged self page w) <> INVALID_PAGE.
Proof.
  intros Hv. unfold lockPage, bind. rewrite Hv. cbn [negb].
  destruct (isConnected self w) as [[|] w1]; bus; [ | discriminate ].
  destruct (isEPROMDevice self); bus.
  - destruct (negb (_ =? _)); bus; [ discriminate | ].
    destruct (pulse self _) as [[] w2]. discriminate.
  - destruct (scratchWrite _ _ _ _ _ _) as [status w2]. discriminate.
Qed.

(** C1.  The validator checks the resolved model and the upper bound and
    nothing else: with a model resolved it accepts every negative page, and
    [readPage], [writePage] and [lockPage] called with such a page go on to
    the bus and never answer [INVALID_PAGE]. *)
Theorem isPageValid_accepts_negative_pages self page :
  0 <= _curModelIndex self < 5 ->
  page < 0 ->
  isPageValid self page = true /\
  (forall data w, fst (fst (readPage crc8 self data page w)) <> INVALID_PAGE) /\
  (forall data w,
     fst (writePage crc8 literals_merged self data page w) <> INVALID_PAGE) /\
  (forall w, fst (lockPage crc8 literals_merged self page w) <> INVALID_PAGE).
Proof.
  intros Hi Hp.
  assert (isPageValid self page = true) as Hv.
  { apply isPageValid_iff. pose proof (chip_pages_positive _ Hi). lia. }
  repeat split; intros.
  - exact Hv.
  - apply readPage_validated, Hv.
  - apply writePage_validated, Hv.
  - apply lockPage_validated, Hv.
Qed.

(** ** isPageLocked *)

Lemma isConnected_false_locked self page w :
  fst (isConnected self w) = false ->
  fst (isPageLocked crc8 self page w) = true.
Proof.
  intros Hc. unfold isPageLocked, bind.
  destruct (isPageValid self page); simpl; [ | reflexivity ].
  destruct (isConnected self w) as [c w1]. simpl in Hc. subst c.
  reflexivity.
Qed.

(** C2.  [isPageLocked] is declared [bool], so each status code it returns
    is converted on the way out: when the page is rejected, when the device
    is not found on the bus, and when the CRC of the status command does not
    match, the caller receives [true], the very value of a locked page. *)
Theorem isPageLocked_failure_reads_as_locked self page w :
  isPageValid self page = false \/
  fst (isConnected self w) = false \/
  (isEPROMDevice self = true /\
   u8 (hd 0xFF (rx (snd (isConnected self w))))
     <> u8 (crc8 [READSTATUS; 0x00; 0x00])) ->
  fst (isPageLocked crc8 self page w) = true /\
  bool_of_int INVALID_PAGE = true /\
  bool_of_int DEVICE_DISCONNECTED = true /\
  bool_of_int CRC_MISMATCH = true.
Proof.
  intros H. split; [ | repeat split ].
  destruct H as [Hv | [Hc | [He Hcrc]]].
  - rewrite isPageLocked_rejected by exact Hv. reflexivity.
  - apply isConnected_false_locked, Hc.
  - unfold isPageLocked, bind.
    destruct (isPageValid self page); simpl; [ | reflexivity ].
    destruct (isConnected self w) as [[|] w1]; simpl in *; [ | reflexivity ].
    rewrite He. simpl.
    destruct (u8 (crc8 [READSTATUS; 0; 0]) =? u8 (hd 255 (rx w1))) eqn:E.
    + apply Z.eqb_eq in E. congruence.
    + reflexivity.
Qed.

(** ** Construction *)

(** C9.  Neither constructor assigns [_curModelIndex]: the object keeps what
    its storage held.  An object of static storage duration starts from
    zeroed storage, so index 0 is current: the name is that of the first
    table entry and page 0 passes the validator of every page operation. *)
Theorem constructor_leaves_index_unset :
  (forall mem, _curModelIndex (DallasEPROM_1 mem) = _curModelIndex mem) /\
  (forall mem pin w,
     _curModelIndex (fst (DallasEPROM_2 mem pin w)) = _curModelIndex mem) /\
  getDeviceName (DallasEPROM_1 static_storage) = Some "DS2502"%string /\
  isPageValid (DallasEPROM_1 static_storage) 0 = true /\
  (forall data w,
     fst (fst (readPage crc8 (DallasEPROM_1 static_storage) data 0 w))
       <> INVALID_PAGE) /\
  (forall data w,
     fst (writePage crc8 literals_merged (DallasEPROM_1 static_storage) data 0 w)
       <> INVALID_PAGE) /\
  (forall w,
     fst (lockPage crc8 literals_merged (DallasEPROM_1 static_storage) 0 w)
       <> INVALID_PAGE).
Proof.
  repeat split; intros.
  - apply readPage_validated. reflexivity.
  - apply writePage_validated. reflexivity.
  - apply lockPage_validated. reflexivity.
Qed.

(** ** Bytes on the bus *)

Lemma u8_idem z : u8 (u8 z) = u8 z.
Proof. unfold u8. apply Z.mod_mod. lia. Qed.

Lemma u8_range z : 0 <= u8 z < 256.
Proof. unfold u8. apply Z.mod_pos_bound. lia. Qed.

Lemma u8_small z : 0 <= z < 256 -> u8 z = z.
Proof. unfold u8. apply Z.mod_small. Qed.

Lemma uint_small z : 0 <= z < 65536 -> uint z = z.
Proof. unfold uint. apply Z.mod_small. Qed.

Lemma high_byte_of_byte z : u8 (Z.shiftr (u8 z) 8) = 0.
Proof.
  rewrite Z.shiftr_div_pow2 by lia. change (2 ^ 8) with 256.
  rewrite Z.div_small by apply u8_range. reflexivity.
Qed.

Lemma high_byte_small z : 0 <= z < 65536 -> u8 (Z.shiftr z 8) = z / 256.
Proof.
  intros H. rewrite Z.shiftr_div_pow2 by lia. change (2 ^ 8) with 256.
  apply u8_small. split.
  - apply Z.div_pos; lia.
  - apply Z.div_lt_upper_bound; lia.
Qed.

Lemma chip_pages_bound (i : Z) : pages (chip i) <= 64.
Proof.
  unfold chip. destruct (i <? 0); [ cbn; lia | ].
  generalize (Z.to_nat i). intros n.
  do 6 (destruct n as [|n]; [ cbn; lia | ]).
  destruct n; cbn; lia.
Qed.

Lemma ow_read_bytes_log (n : nat) :
  forall w, exists evs, log (snd (ow_read_bytes n w)) = log w ++ evs.
Proof.
  induction n as [|n IH]; intros w.
  - exists []. symmetry. apply app_nil_r.
  - cbn [ow_read_bytes]. unfold bind. bus.
    match goal with
    | |- context [ow_read_bytes n ?w'] =>
        destruct (IH w') as [evs Hevs]; destruct (ow_read_bytes n w') as [bs w2]
    end.
    cbn [snd log emit] in Hevs. cbn [ret snd]. rewrite Hevs, <- app_assoc.
    eexists. reflexivity.
Qed.

Lemma read_into_log data w :
  exists evs, log (snd (read_into data w)) = log w ++ evs.
Proof.
  unfold read_into, bind.
  destruct (ow_read_bytes_log 32 w) as [evs Hevs].
  destruct (ow_read_bytes 32 w) as [bs w']. exists evs. exact Hevs.
Qed.

(** ** lockPage *)

Lemma lock_mask_from_8 page : 8 <= page -> lock_mask page = 0.
Proof.
  intros H. unfold lock_mask, u8. rewrite Z.shiftl_1_l.
  replace page with ((page - 8) + 8) by lia.
  rewrite Z.pow_add_r by lia.
  change (2 ^ 8) with 256. apply Z.mod_mul. lia.
Qed.

(** Below page 8 the mask is the single bit numbered [page]. *)
Lemma lock_mask_below_8 page :
  0 <= page < 8 ->
  lock_mask page = 2 ^ page /\
  forall n, Z.testbit (lock_mask page) n = (page =? n).
Proof.
  intros H.
  assert (lock_mask page = 2 ^ page) as E.
  { assert (page = 0 \/ page = 1 \/ page = 2 \/ page = 3 \/ page = 4 \/
            page = 5 \/ page = 6 \/ page = 7) as Hp by lia.
    repeat (destruct Hp as [-> | Hp]; [ reflexivity | ]).
    subst. reflexivity. }
  split; [ exact E | ]. intros n. rewrite E. apply Z.pow2_bits_eqb. lia.
Qed.

(** The command of the EPROM path, for any page the validator lets through. *)
Lemma lockPage_eprom_command self page w w1 :
  isEPROMDevice self = true ->
  isPageValid self page = true ->
  isConnected self w = (true, w1) ->
  exists tail,
    log (snd (lockPage crc8 literals_merged self page w)) =
      log w1 ++ [EvReset; EvSelect (_addr self); EvWrite WRITESTATUS false;
                 EvWrite 0x00 false; EvWrite 0x00 false;
                 EvWrite (lock_mask page) false] ++ tail.
Proof.
  intros He Hv Hc. unfold lockPage, bind.
  rewrite Hv. cbn [negb]. rewrite Hc. cbn [negb]. rewrite He. bus.
  replace (u8 (lock_mask page)) with (lock_mask page)
    by (unfold lock_mask; symmetry; apply u8_idem).
  destruct (u8 (crc8 _) =? _); bus.
  - unfold pulse, bind. destruct (0 <=? _progPin self); bus;
      rewrite <- !app_assoc; cbn [app]; eexists; reflexivity.
  - rewrite <- !app_assoc. cbn [app]. eexists. reflexivity.
Qed.

(** C3.  From page 8 on, which the 64-page DS2505 allows, the byte made of
    [1 << page] is zero: the command issued is [{WRITESTATUS, 0, 0, 0}] and
    the bit numbered [page] is not in it. *)
Theorem lockPage_eprom_mask_empty_from_page_8 self page w w1 :
  isEPROMDevice self = true ->
  isPageValid self page = true ->
  8 <= page ->
  isConnected self w = (true, w1) ->
  lock_mask page = 0 /\
  Z.testbit (lock_mask page) page = false /\
  exists tail,
    log (snd (lockPage crc8 literals_merged self page w)) =
      log w1 ++ [EvReset; EvSelect (_addr self); EvWrite WRITESTATUS false;
                 EvWrite 0x00 false; EvWrite 0x00 false; EvWrite 0x00 false]
            ++ tail.
Proof.
  intros He Hv Hp Hc.
  pose proof (lock_mask_from_8 page Hp) as Hz.
  split; [ exact Hz | ]. split.
  - rewrite Hz. apply Z.bits_0.
  - destruct (lockPage_eprom_command self page w w1 He Hv Hc) as [tail Ht].
    exists tail. rewrite Ht, Hz. reflexivity.
Qed.

(** C4.  On the EEPROM path the status of the scratchpad commit is dropped:
    [lockPage] returns 0 when the commit of the sentinel failed. *)
Theorem lockPage_eeprom_drops_commit_status self page w w1 :
  isEPROMDevice self = false ->
  isPageValid self page = true ->
  isConnected self w = (true, w1) ->
  fst (scratchWrite literals_merged self [0x55] 1
         (uint (pages (chip (_curModelIndex self)) * 32 + page))
         (snd (ow_select (_addr self) (snd (ow_reset w1))))) <> 0 ->
  lockPage crc8 literals_merged self page w =
    (0, snd (scratchWrite literals_merged self [0x55] 1
               (uint (pages (chip (_curModelIndex self)) * 32 + page))
               (snd (ow_select (_addr self) (snd (ow_reset w1)))))).
Proof.
  intros He Hv Hc _. unfold lockPage, bind.
  rewrite Hv. cbn [negb]. rewrite Hc. cbn [negb]. rewrite He. bus.
  destruct (scratchWrite _ _ _ _ _ _) as [status w2]. reflexivity.
Qed.

(** ** readPage *)

Lemma valid_page_offset self page :
  0 <= page < pages (chip (_curModelIndex self)) ->
  0 <= page * 32 < 65536.
Proof.
  intros H. pose proof (chip_pages_bound (_curModelIndex self)). lia.
Qed.

(** C5.  On an EPROM, once the status command is acknowledged with its CRC,
    the byte read next decides the address of the memory-read command: a
    byte other than 0xFF is the whole address (low byte the redirect byte,
    high byte 0), and 0xFF leaves the address at [page * 32]. *)
Theorem readPage_eprom_redirect self data page w w1 c r rest :
  isEPROMDevice self = true ->
  0 <= page < pages (chip (_curModelIndex self)) ->
  isConnected self w = (true, w1) ->
  rx w1 = c :: r :: rest ->
  u8 c = u8 (crc8 [READSTATUS; u8 (page + 1); 0x00]) ->
  exists tail,
    log (snd (readPage crc8 self data page w)) =
      log w1
      ++ [EvReset; EvSelect (_addr self); EvWrite READSTATUS false;
          EvWrite (u8 (page + 1)) false; EvWrite 0x00 false;
          EvRead (u8 c); EvRead (u8 r);
          EvReset; EvSelect (_addr self); EvWrite READMEMORY false;
          EvWrite (if u8 r =? 0xFF then (page * 32) mod 256 else u8 r) false;
          EvWrite (if u8 r =? 0xFF then (page * 32) / 256 else 0) false]
      ++ tail.
Proof.
  intros He Hp Hc Hrx Hcrc.
  assert (isPageValid self page = true) as Hv.
  { apply isPageValid_iff. split; [ | lia ].
    unfold isEPROMDevice in He.
    destruct (0 <=? _curModelIndex self) eqn:E; [ | discriminate ].
    apply Z.leb_le, E. }
  pose proof (valid_page_offset self page Hp) as Hoff.
  unfold readPage, readPage_redirect, bind.
  rewrite Hv. cbn [negb]. rewrite Hc. cbn [negb]. rewrite He. bus.
  rewrite Hrx. bus. rewrite <- Hcrc, Z.eqb_refl. bus.
  rewrite uint_small by exact Hoff.
  destruct (u8 r =? 0xFF) eqn:Er; bus; rewrite ?u8_idem.
  - rewrite (high_byte_small (page * 32)) by exact Hoff.
    change (u8 (page * 32)) with ((page * 32) mod 256).
    destruct (negb (_ =? _)); bus.
    + rewrite <- !app_assoc. cbn [app]. eexists. reflexivity.
    + match goal with
      | |- context [read_into data ?w'] =>
          destruct (read_into_log data w') as [evs Hevs];
          destruct (read_into data w') as [d w3]
      end.
      cbn [snd log emit] in Hevs. bus. rewrite Hevs, <- !app_assoc.
      cbn [app].
      eexists. reflexivity.
  - rewrite high_byte_of_byte. change (u8 0) with 0.
    destruct (negb (_ =? _)); bus.
    + rewrite <- !app_assoc. cbn [app]. eexists. reflexivity.
    + match goal with
      | |- context [read_into data ?w'] =>
          destruct (read_into_log data w') as [evs Hevs];
          destruct (read_into data w') as [d w3]
      end.
      cbn [snd log emit] in Hevs. bus. rewrite Hevs, <- !app_assoc.
      cbn [app].
      eexists. reflexivity.
Qed.

(** ** The scratchpad sub-protocol *)

Lemma emitted_of_log {A : Type} (m : M A) (w : world) (evs : list event) :
  log (snd (m w)) = log w ++ evs -> emitted m w = evs.
Proof.
  intros H. unfold emitted. rewrite H, skipn_app, skipn_all, Nat.sub_diag.
  reflexivity.
Qed.

Lemma commands_skip (l rest : list event) :
  Forall (fun e => is_select e = false) l ->
  commands (l ++ rest) = commands rest.
Proof.
  induction 1 as [|e l He _ IH]; [ reflexivity | ].
  destruct e; try discriminate He; cbn [app commands]; exact IH.
Qed.

Lemma commands_none (l : list event) :
  Forall (fun e => is_select e = false) l -> commands l = [].
Proof.
  intros H. rewrite <- (app_nil_r l). rewrite commands_skip by exact H.
  reflexivity.
Qed.

Lemma sent_no_select data i n :
  Forall (fun e => is_select e = false) (sent data i n).
Proof.
  apply Forall_forall. intros e He. apply in_map_iff in He.
  destruct He as [j [<- _]]. reflexivity.
Qed.

Lemma reads_no_select (vs : list Z) :
  Forall (fun e => is_select e = false) (map EvRead vs).
Proof.
  apply Forall_forall. intros e He. apply in_map_iff in He.
  destruct He as [v [<- _]]. reflexivity.
Qed.

Lemma byte_at_idem data i : u8 (byte_at data i) = byte_at data i.
Proof. apply u8_idem. Qed.

(** The send loop writes the bytes in order and consumes no answer. *)
Lemma scratch_send_spec data (n : nat) :
  forall i w,
    scratch_send data i n w =
      (tt, {| presence := presence w; scans := scans w; cursor := cursor w;
              rx := rx w; log := log w ++ sent data i n |}).
Proof.
  induction n as [|n IH]; intros i w.
  - cbn [scratch_send sent seq map]. unfold ret. rewrite app_nil_r.
    destruct w; reflexivity.
  - cbn [scratch_send]. unfold bind. bus. rewrite IH. bus.
    rewrite byte_at_idem, <- app_assoc. reflexivity.
Qed.

Lemma hd_nth {A : Type} (l : list A) (d : A) : hd d l = nth 0 l d.
Proof. destruct l; reflexivity. Qed.

Lemma nth_tl {A : Type} (l : list A) (d : A) (j : nat) :
  nth j (tl l) d = nth (S j) l d.
Proof. destruct l; [ destruct j | ]; reflexivity. Qed.

(** The verify loop stops at the first echoed byte that differs. *)
Lemma scratch_verify_mismatch data (n : nat) :
  forall i w,
    (exists j, (j < n)%nat /\ u8 (nth j (rx w) 0xFF) <> byte_at data (i + j)) ->
    exists w' vs,
      scratch_verify data i n w = (false, w') /\
      log w' = log w ++ map EvRead vs.
Proof.
  induction n as [|n IH]; intros i w [j [Hj Hne]]; [ inversion Hj | ].
  cbn [scratch_verify]. unfold bind. bus.
  destruct (u8 (hd 255 (rx w)) =? byte_at data i) eqn:E; bus.
  - destruct j as [|j].
    + exfalso. apply Hne. rewrite Nat.add_0_r, <- hd_nth.
      apply Z.eqb_eq, E.
    + match goal with
      | |- context [scratch_verify data (S i) n ?w1] =>
          destruct (IH (S i) w1) as [w' [vs [Hrun Hlog]]]
      end.
      { exists j. split; [ lia | ]. bus. rewrite nth_tl.
        replace (S i + j)%nat with (i + S j)%nat by lia. exact Hne. }
      exists w', (u8 (hd 255 (rx w)) :: vs). split; [ exact Hrun | ].
      rewrite Hlog. bus. rewrite <- app_assoc. reflexivity.
  - eexists. exists [u8 (hd 255 (rx w))]. split; reflexivity.
Qed.

Lemma name_is_not_DS2430 (m : model_type) :
  name m <> Some "DS2430"%string -> name_is_DS2430 literals_merged m = false.
Proof.
  intros H. unfold name_is_DS2430. destruct (name m) as [s|]; [ | reflexivity ].
  destruct (String.eqb s "DS2430") eqn:E.
  - apply String.eqb_eq in E. subst s. contradiction.
  - apply andb_false_r.
Qed.

(** The whole run of [scratchWrite] when an echoed byte differs. *)
Lemma scratchWrite_mismatch_run self data len address w :
  name (chip (_curModelIndex self)) <> Some "DS2430"%string ->
  (exists i, (i < Z.to_nat len)%nat /\
             u8 (nth (3 + i) (rx w) 0xFF) <> byte_at data i) ->
  exists w' auth echoes,
    scratchWrite literals_merged self data len address w
      = (BAD_INTEGRITY, w') /\
    log w' =
      log w
      ++ [EvReset; EvSelect (_addr self); EvWrite WRITEMEMORY false;
          EvWrite (u8 address) false; EvWrite (u8 (Z.shiftr address 8)) false]
      ++ sent data 0 (Z.to_nat len)
      ++ [EvReset; EvSelect (_addr self); EvWrite READSTATUS false]
      ++ map EvRead auth ++ map EvRead echoes.
Proof.
  intros Hname [i [Hi Hne]].
  unfold scratchWrite, bind. bus. rewrite scratch_send_spec. bus.
  rewrite (name_is_not_DS2430 _ Hname). bus.
  cbn [ow_read_bytes]. unfold bind. bus.
  match goal with
  | |- context [scratch_verify data 0 (Z.to_nat len) ?w1] =>
      destruct (scratch_verify_mismatch data (Z.to_nat len) 0%nat w1)
        as [w' [vs [Hrun Hlog]]]
  end.
  { exists i. split; [ exact Hi | ]. bus. rewrite !nth_tl. exact Hne. }
  rewrite Hrun. bus.
  exists w', [u8 (hd 255 (rx w)); u8 (hd 255 (tl (rx w)));
              u8 (hd 255 (tl (tl (rx w))))], vs.
  split; [ reflexivity | ].
  rewrite Hlog. bus. rewrite !u8_idem, <- !app_assoc. reflexivity.
Qed.

(** C7.  For a model other than the DS2430, when one of the bytes echoed
    after the three auth bytes differs from the byte sent, [scratchWrite]
    returns [BAD_INTEGRITY]; the commands it issued are the scratchpad write
    and the scratchpad read, so no commit command [WRITESTATUS], and the
    bus was not left powered by the final byte of a commit. *)
Theorem scratchWrite_mismatch_no_commit self data len address w :
  name (chip (_curModelIndex self)) <> Some "DS2430"%string ->
  (exists i, (i < Z.to_nat len)%nat /\
             u8 (nth (3 + i) (rx w) 0xFF) <> byte_at data i) ->
  fst (scratchWrite literals_merged self data len address w) = BAD_INTEGRITY /\
  commands (emitted (scratchWrite literals_merged self data len address) w)
    = [WRITEMEMORY; READSTATUS] /\
  ~ In WRITESTATUS
      (commands (emitted (scratchWrite literals_merged self data len address) w)) /\
  (forall v, ~ In (EvWrite v true)
               (emitted (scratchWrite literals_merged self data len address) w)).
Proof.
  intros Hname Hne.
  destruct (scratchWrite_mismatch_run self data len address w Hname Hne)
    as [w' [auth [echoes [Hrun Hlog]]]].
  assert (log (snd (scratchWrite literals_merged self data len address w))
          = log w ++ _) as Hlog' by (rewrite Hrun; exact Hlog).
  rewrite (emitted_of_log _ _ _ Hlog'), Hrun.
  assert (commands
            ([EvReset; EvSelect (_addr self); EvWrite WRITEMEMORY false;
              EvWrite (u8 address) false;
              EvWrite (u8 (Z.shiftr address 8)) false]
             ++ sent data 0 (Z.to_nat len)
             ++ [EvReset; EvSelect (_addr self); EvWrite READSTATUS false]
             ++ map EvRead auth ++ map EvRead echoes)
          = [WRITEMEMORY; READSTATUS]) as Hcmd.
  { cbn [app commands].
    rewrite (commands_skip (sent data 0 (Z.to_nat len)))
      by apply sent_no_select.
    cbn [app commands]. rewrite commands_skip by apply reads_no_select.
    rewrite commands_none by apply reads_no_select. reflexivity. }
  split; [ reflexivity | ]. split; [ exact Hcmd | ]. split.
  - rewrite Hcmd. cbn [In]. intros [H | [H | []]]; discriminate H.
  - intros v Hin.
    repeat (apply in_app_or in Hin; destruct Hin as [Hin | Hin]).
    + cbn [In] in Hin.
      repeat (destruct Hin as [Hin | Hin]; [ discriminate Hin | ]).
      exact Hin.
    + apply in_map_iff in Hin. destruct Hin as [j [Hj _]]. discriminate Hj.
    + cbn [In] in Hin.
      repeat (destruct Hin as [Hin | Hin]; [ discriminate Hin | ]).
      exact Hin.
    + apply in_map_iff in Hin. destruct Hin as [j [Hj _]]. discriminate Hj.
    + apply in_map_iff in Hin. destruct Hin as [j [Hj _]]. discriminate Hj.
Qed.

(** ** The start of a commit on the bus *)

Lemma scratch_verify_log data (n : nat) :
  forall i w,
    exists vs, log (snd (scratch_verify data i n w)) = log w ++ map EvRead vs.
Proof.
  induction n as [|n IH]; intros i w.
  - exists []. symmetry. apply app_nil_r.
  - cbn [scratch_verify]. unfold bind. bus.
    destruct (negb (_ =? _)); bus.
    + exists [u8 (hd 255 (rx w))]. reflexivity.
    + match goal with
      | |- context [scratch_verify data (S i) n ?w1] =>
          destruct (IH (S i) w1) as [vs Hvs]
      end.
      exists (u8 (hd 255 (rx w)) :: vs). rewrite Hvs. bus.
      rewrite <- app_assoc. reflexivity.
Qed.

Lemma scratchWrite_log_prefix self data len address w :
  exists tail,
    log (snd (scratchWrite literals_merged self data len address w)) =
      log w
      ++ [EvReset; EvSelect (_addr self); EvWrite WRITEMEMORY false;
          EvWrite (u8 address) false; EvWrite (u8 (Z.shiftr address 8)) false]
      ++ sent data 0 (Z.to_nat len) ++ tail.
Proof.
  unfold scratchWrite, bind. bus. rewrite scratch_send_spec. bus.
  rewrite !u8_idem.
  destruct (name_is_DS2430 literals_merged (chip (_curModelIndex self))); bus.
  - rewrite <- !app_assoc. cbn [app]. eexists. reflexivity.
  - cbn [ow_read_bytes]. unfold bind. bus.
    match goal with
    | |- context [scratch_verify data 0 (Z.to_nat len) ?w1] =>
        destruct (scratch_verify_log data (Z.to_nat len) 0%nat w1) as [vs Hvs];
        destruct (scratch_verify data 0 (Z.to_nat len) w1) as [[|] w2]
    end; cbn [snd log emit] in Hvs; bus.
    + destruct (negb (_ =? _)); bus; rewrite Hvs, <- !app_assoc; cbn [app];
        eexists; reflexivity.
    + rewrite Hvs, <- !app_assoc. cbn [app]. eexists. reflexivity.
Qed.

(** ** writePage on an EEPROM *)

Lemma byte_at_firstn (l : list Z) (n j : nat) :
  (j < n)%nat -> byte_at (firstn n l) j = byte_at l j.
Proof.
  unfold byte_at. revert l j.
  induction n as [|n IH]; intros l j Hj; [ inversion Hj | ].
  destruct l as [|x l]; [ reflexivity | ].
  destruct j as [|j]; [ reflexivity | ].
  cbn [firstn nth]. apply IH. lia.
Qed.

Lemma sent_ext d1 d2 (n : nat) :
  forall i,
    (forall j, (i <= j < i + n)%nat -> byte_at d1 j = byte_at d2 j) ->
    sent d1 i n = sent d2 i n.
Proof.
  intros i H. unfold sent. apply map_ext_in. intros j Hj.
  apply in_seq in Hj. rewrite (H j) by exact Hj. reflexivity.
Qed.

Lemma scratch_verify_ext d1 d2 (n : nat) :
  forall i w,
    (forall j, (i <= j < i + n)%nat -> byte_at d1 j = byte_at d2 j) ->
    scratch_verify d1 i n w = scratch_verify d2 i n w.
Proof.
  induction n as [|n IH]; intros i w H; [ reflexivity | ].
  cbn [scratch_verify]. unfold bind. bus.
  rewrite (H i) by lia.
  destruct (negb (_ =? _)); [ reflexivity | ].
  apply IH. intros j Hj. apply H. lia.
Qed.

(** [scratchWrite(p, length, a)] reads [p[0..length)] and nothing else. *)
Lemma scratchWrite_chunk self data len address w :
  scratchWrite literals_merged self data len address w =
  scratchWrite literals_merged self (firstn (Z.to_nat len) data) len address w.
Proof.
  assert (forall j, (0 <= j < 0 + Z.to_nat len)%nat ->
                    byte_at data j = byte_at (firstn (Z.to_nat len) data) j)
    as Hsame by (intros j Hj; symmetry; apply byte_at_firstn; lia).
  unfold scratchWrite, bind. bus. rewrite !scratch_send_spec.
  rewrite (sent_ext _ _ _ _ Hsame).
  destruct (name_is_DS2430 literals_merged (chip (_curModelIndex self)));
    bus; [ reflexivity | ].
  cbn [ow_read_bytes]. unfold bind. bus.
  rewrite (scratch_verify_ext _ _ _ _ _ Hsame). reflexivity.
Qed.

Lemma byte_at_skipn (l : list Z) (k j : nat) :
  byte_at (skipn k l) j = byte_at l (k + j).
Proof.
  unfold byte_at. revert l.
  induction k as [|k IH]; intros l; [ reflexivity | ].
  destruct l as [|x l]; [ destruct j; reflexivity | ].
  cbn [skipn Nat.add nth]. apply IH.
Qed.

Lemma sent_shift data (k n : nat) :
  forall i, sent (skipn k data) i n = sent data (k + i) n.
Proof.
  unfold sent. induction n as [|n IH]; intros i; [ reflexivity | ].
  cbn [seq map]. rewrite byte_at_skipn, IH.
  replace (k + S i)%nat with (S (k + i)) by lia. reflexivity.
Qed.

(** The bytes a commit of the chunk at [k] sends are [data[k..k+8)]. *)
Lemma sent_chunk data (k : nat) :
  sent (firstn 8 (skipn k data)) 0 8 = sent data k 8.
Proof.
  rewrite (sent_ext (firstn 8 (skipn k data)) (skipn k data) 8 0)
    by (intros j Hj; apply byte_at_firstn; lia).
  rewrite sent_shift, Nat.add_0_r. reflexivity.
Qed.

Lemma writePage_chunks_step fuel self data address i w :
  writePage_chunks literals_merged (S fuel) self data address i w =
    if i <? 32 then
      let (status, w') :=
        scratchWrite literals_merged self (skipn (Z.to_nat i) data) 8
          (uint (address + i)) w in
      if negb (status =? 0) then (status, w')
      else writePage_chunks literals_merged fuel self data address (i + 8) w'
    else (0, w).
Proof.
  cbn [writePage_chunks]. destruct (i <? 32); [ | reflexivity ].
  unfold bind. destruct (scratchWrite _ _ _ _ _ _) as [status w'].
  destruct (negb (status =? 0)); reflexivity.
Qed.

(** C6.  On an EEPROM, with the page validated and the device found,
    [writePage] is four scratchpad commits of 8 bytes, at [page * 32],
    [page * 32 + 8], [page * 32 + 16] and [page * 32 + 24] in this order;
    the first status other than 0 is returned at once, with no further
    commit, and the result is 0 exactly when all four commits returned 0.
    On the bus each commit starts with the scratchpad-write command for its
    offset, low byte first, followed by its 8 bytes of the buffer; when the
    result is 0 the four commits are on the bus in this order. *)
Theorem writePage_eeprom_four_commits self data page w w1 :
  0 <= _curModelIndex self ->
  isEPROMDevice self = false ->
  0 <= page < pages (chip (_curModelIndex self)) ->
  List.length data = 32%nat ->
  isConnected self w = (true, w1) ->
  let commit (k : nat) :=
    scratchWrite literals_merged self (firstn 8 (skipn k data)) 8
      (page * 32 + Z.of_nat k) in
  writePage crc8 literals_merged self data page w =
    (let (s0, w2) := commit 0%nat w1 in
     if negb (s0 =? 0) then (s0, w2) else
     let (s1, w3) := commit 8%nat w2 in
     if negb (s1 =? 0) then (s1, w3) else
     let (s2, w4) := commit 16%nat w3 in
     if negb (s2 =? 0) then (s2, w4) else
     let (s3, w5) := commit 24%nat w4 in
     if negb (s3 =? 0) then (s3, w5) else (0, w5)) /\
  (fst (writePage crc8 literals_merged self data page w) = 0 <->
   exists w2 w3 w4 w5,
     commit 0%nat w1 = (0, w2) /\ commit 8%nat w2 = (0, w3) /\
     commit 16%nat w3 = (0, w4) /\ commit 24%nat w4 = (0, w5)) /\
  (forall k, In k [0; 8; 16; 24]%nat ->
     List.length (firstn 8 (skipn k data)) = 8%nat) /\
  (forall k, In k [0; 8; 16; 24]%nat ->
     forall wk, exists tail,
       log (snd (commit k wk)) =
         log wk ++ commit_start self data k 8 (page * 32 + Z.of_nat k)
                ++ tail) /\
  (fst (writePage crc8 literals_merged self data page w) = 0 ->
   exists t0 t1 t2 t3,
     log (snd (writePage crc8 literals_merged self data page w)) =
       log w1
       ++ commit_start self data 0 8 (page * 32) ++ t0
       ++ commit_start self data 8 8 (page * 32 + 8) ++ t1
       ++ commit_start self data 16 8 (page * 32 + 16) ++ t2
       ++ commit_start self data 24 8 (page * 32 + 24) ++ t3).
Proof.
  intros Hi He Hp Hlen Hc commit.
  assert (forall k, In k [0; 8; 16; 24]%nat ->
            List.length (firstn 8 (skipn k data)) = 8%nat) as Hchunk.
  { intros k Hk. rewrite length_firstn, length_skipn, Hlen.
    cbn [In] in Hk. lia. }
  assert (isPageValid self page = true) as Hv
    by (apply isPageValid_iff; split; [ exact Hi | lia ]).
  pose proof (valid_page_offset self page Hp) as Hoff.
  assert (writePage crc8 literals_merged self data page w =
          (let (s0, w2) := commit 0%nat w1 in
           if negb (s0 =? 0) then (s0, w2) else
           let (s1, w3) := commit 8%nat w2 in
           if negb (s1 =? 0) then (s1, w3) else
           let (s2, w4) := commit 16%nat w3 in
           if negb (s2 =? 0) then (s2, w4) else
           let (s3, w5) := commit 24%nat w4 in
           if negb (s3 =? 0) then (s3, w5) else (0, w5))) as Heq.
  { pose proof (chip_pages_bound (_curModelIndex self)) as Hmax.
    unfold writePage, bind.
    rewrite Hv. cbn [negb]. rewrite Hc. cbn [negb]. rewrite He. cbn [negb].
    rewrite uint_small by exact Hoff. unfold commit.
    do 4 (rewrite writePage_chunks_step;
          match goal with
          | |- context [?i <? 32] =>
              let b := eval vm_compute in (i <? 32) in
              change (i <? 32) with b; cbv iota
          end;
          rewrite scratchWrite_chunk, uint_small by lia;
          match goal with
          | |- (let (_, _) := ?a in _) = (let (_, _) := ?b in _) =>
              change b with a; destruct a as [? ?]
          end;
          destruct (negb (_ =? 0)); [ reflexivity | ]).
    rewrite writePage_chunks_step. reflexivity. }
  assert (forall k, In k [0; 8; 16; 24]%nat ->
            forall wk, exists tail,
              log (snd (commit k wk)) =
                log wk ++ commit_start self data k 8 (page * 32 + Z.of_nat k)
                       ++ tail) as Hbus.
  { intros k Hk wk. unfold commit.
    pose proof (chip_pages_bound (_curModelIndex self)) as Hmax.
    assert (0 <= page * 32 + Z.of_nat k < 65536) as Hrange
      by (cbn [In] in Hk; lia).
    destruct (scratchWrite_log_prefix self
                (firstn 8 (skipn k data)) 8 (page * 32 + Z.of_nat k) wk)
      as [tail Ht].
    exists tail. rewrite Ht. unfold commit_start.
    rewrite (high_byte_small _ Hrange).
    change (Z.to_nat 8) with 8%nat. rewrite sent_chunk.
    rewrite <- !app_assoc. reflexivity. }
  assert (fst (writePage crc8 literals_merged self data page w) = 0 <->
          exists w2 w3 w4 w5,
            commit 0%nat w1 = (0, w2) /\ commit 8%nat w2 = (0, w3) /\
            commit 16%nat w3 = (0, w4) /\ commit 24%nat w4 = (0, w5)) as Hiff.
  2: { split; [ exact Heq | ]. split; [ exact Hiff | ].
       split; [ exact Hchunk | ]. split; [ exact Hbus | ].
       intros Hzero. apply Hiff in Hzero.
       destruct Hzero as [w2 [w3 [w4 [w5 [H0 [H1 [H2 H3]]]]]]].
       assert (snd (writePage crc8 literals_merged self data page w) = w5)
         as Hend.
       { rewrite Heq, H0. cbn [negb Z.eqb]. rewrite H1. cbn [negb Z.eqb].
         rewrite H2. cbn [negb Z.eqb]. rewrite H3. reflexivity. }
       destruct (Hbus 0%nat ltac:(cbn [In]; tauto) w1) as [t0 L0].
       destruct (Hbus 8%nat ltac:(cbn [In]; tauto) w2) as [t1 L1].
       destruct (Hbus 16%nat ltac:(cbn [In]; tauto) w3) as [t2 L2].
       destruct (Hbus 24%nat ltac:(cbn [In]; tauto) w4) as [t3 L3].
       rewrite H0 in L0. rewrite H1 in L1. rewrite H2 in L2. rewrite H3 in L3.
       cbn [snd] in L0, L1, L2, L3.
       change (Z.of_nat 0) with 0 in L0. rewrite Z.add_0_r in L0.
       change (Z.of_nat 8) with 8 in L1. change (Z.of_nat 16) with 16 in L2.
       change (Z.of_nat 24) with 24 in L3.
       exists t0, t1, t2, t3.
       rewrite Hend, L3, L2, L1, L0, <- !app_assoc. reflexivity. }
  rewrite Heq.
  destruct (commit 0%nat w1) as [s0 w2].
  destruct (s0 =? 0) eqn:E0; cbn [negb fst].
  2: { apply Z.eqb_neq in E0. split; [ intros H; contradiction | ].
       intros [x2 [x3 [x4 [x5 [H0 _]]]]]. inversion H0. contradiction. }
  apply Z.eqb_eq in E0. subst s0.
  destruct (commit 8%nat w2) as [s1 w3] eqn:C1.
  destruct (s1 =? 0) eqn:E1; cbn [negb fst].
  2: { apply Z.eqb_neq in E1. split; [ intros H; contradiction | ].
       intros [x2 [x3 [x4 [x5 [H0 [H1 _]]]]]]. inversion H0. subst x2.
       rewrite C1 in H1. inversion H1. contradiction. }
  apply Z.eqb_eq in E1. subst s1.
  destruct (commit 16%nat w3) as [s2 w4] eqn:C2.
  destruct (s2 =? 0) eqn:E2; cbn [negb fst].
  2: { apply Z.eqb_neq in E2. split; [ intros H; contradiction | ].
       intros [x2 [x3 [x4 [x5 [H0 [H1 [H2 _]]]]]]]. inversion H0. subst x2.
       rewrite C1 in H1. inversion H1. subst x3.
       rewrite C2 in H2. inversion H2. contradiction. }
  apply Z.eqb_eq in E2. subst s2.
  destruct (commit 24%nat w4) as [s3 w5] eqn:C3.
  destruct (s3 =? 0) eqn:E3; cbn [negb fst].
  2: { apply Z.eqb_neq in E3. split; [ intros H; contradiction | ].
       intros [x2 [x3 [x4 [x5 [H0 [H1 [H2 H3]]]]]]]. inversion H0. subst x2.
       rewrite C1 in H1. inversion H1. subst x3.
       rewrite C2 in H2. inversion H2. subst x4.
       rewrite C3 in H3. inversion H3. contradiction. }
  apply Z.eqb_eq in E3. subst s3.
  split; [ | reflexivity ].
  intros _. exists w2, w3, w4, w5. repeat split; assumption.
Qed.

End Properties.

(** * The theorems at concrete inputs *)

Lemma isPageValid_accepts_negative_pages_witness :
  isPageValid (session_for rom_DS2502) (-1) = true /\
  (forall data w,
     fst (fst (readPage dallas_crc8 (session_for rom_DS2502) data (-1) w))
       <> INVALID_PAGE) /\
  (forall data w,
     fst (writePage dallas_crc8 true (session_for rom_DS2502) data (-1) w)
       <> INVALID_PAGE) /\
  (forall w,
     fst (lockPage dallas_crc8 true (session_for rom_DS2502) (-1) w)
       <> INVALID_PAGE).
Proof.
  apply (isPageValid_accepts_negative_pages dallas_crc8 true
           (session_for rom_DS2502) (-1)).
  - change (0 <= 0 < 5). lia.
  - lia.
Defined.

Lemma isPageLocked_failure_reads_as_locked_witness :
  fst (isPageLocked dallas_crc8 (session_for rom_DS2401) 0 idle_bus) = true /\
  bool_of_int INVALID_PAGE = true /\
  bool_of_int DEVICE_DISCONNECTED = true /\
  bool_of_int CRC_MISMATCH = true.
Proof.
  apply (isPageLocked_failure_reads_as_locked dallas_crc8
           (session_for rom_DS2401) 0 idle_bus).
  left. reflexivity.
Defined.

Lemma setAddress_stores_and_resolves_witness :
  _addr (setAddress (session_for rom_DS2502) rom_DS2431) = rom_DS2431 /\
  (0 <= _curModelIndex (setAddress (session_for rom_DS2502) rom_DS2431) <->
   exists m, In m _chip_model_list /\ id m <> 0 /\
             id m = byte_at rom_DS2431 0) /\
  (0 <= _curModelIndex (setAddress (session_for rom_DS2502) rom_DS2431) ->
   _curModelIndex (setAddress (session_for rom_DS2502) rom_DS2431) < 5 /\
   id (chip (_curModelIndex (setAddress (session_for rom_DS2502) rom_DS2431)))
     = byte_at rom_DS2431 0) /\
  (~ 0 <= _curModelIndex (setAddress (session_for rom_DS2502) rom_DS2431) ->
   _curModelIndex (setAddress (session_for rom_DS2502) rom_DS2431) = -1 /\
   getDeviceName (setAddress (session_for rom_DS2502) rom_DS2431) = None).
Proof.
  apply (setAddress_stores_and_resolves (session_for rom_DS2502) rom_DS2431).
  reflexivity.
Defined.

Lemma search_false_keeps_last_enumerated_witness :
  _curModelIndex
    (snd (fst (search (session_for rom_DS2431)
                 (bus_with 1 [rom_DS2401; rom_DS18B20] [])))) = -1 /\
  _addr
    (snd (fst (search (session_for rom_DS2431)
                 (bus_with 1 [rom_DS2401; rom_DS18B20] [])))) = rom_DS18B20.
Proof.
  destruct (search_false_keeps_last_enumerated (session_for rom_DS2431)
              (bus_with 1 [rom_DS2401; rom_DS18B20] []) eq_refl)
    as [Hindex [Hfound _]].
  split; [ exact Hindex | ].
  destruct (Hfound eq_refl) as [_ [Hlast _]].
  exact (Hlast [rom_DS2401] rom_DS18B20 eq_refl).
Defined.

Lemma lockPage_eprom_mask_empty_from_page_8_witness :
  lock_mask 8 = 0 /\
  Z.testbit (lock_mask 8) 8 = false /\
  exists tail,
    log (snd (lockPage dallas_crc8 true (session_for rom_DS2505) 8
                (bus_with 1 [rom_DS2505] []))) =
      log (found (session_for rom_DS2505) (bus_with 1 [rom_DS2505] []))
      ++ [EvReset; EvSelect (_addr (session_for rom_DS2505));
          EvWrite WRITESTATUS false; EvWrite 0x00 false; EvWrite 0x00 false;
          EvWrite 0x00 false]
      ++ tail.
Proof.
  apply (lockPage_eprom_mask_empty_from_page_8 dallas_crc8 true
           (session_for rom_DS2505) 8 (bus_with 1 [rom_DS2505] [])
           (found (session_for rom_DS2505) (bus_with 1 [rom_DS2505] []))).
  - reflexivity.
  - reflexivity.
  - lia.
  - reflexivity.
Defined.

Lemma lockPage_eeprom_drops_commit_status_witness :
  fst (scratchWrite true (session_for rom_DS2431) [0x55] 1 128
         (snd (ow_select rom_DS2431
                 (snd (ow_reset (found (session_for rom_DS2431)
                                   corrupting_bus))))))
    = BAD_INTEGRITY /\
  fst (lockPage dallas_crc8 true (session_for rom_DS2431) 0 corrupting_bus) = 0.
Proof.
  split; [ reflexivity | ].
  rewrite (lockPage_eeprom_drops_commit_status dallas_crc8 true
             (session_for rom_DS2431) 0 corrupting_bus
             (found (session_for rom_DS2431) corrupting_bus)).
  - reflexivity.
  - reflexivity.
  - reflexivity.
  - reflexivity.
  - discriminate.
Defined.

Lemma readPage_eprom_redirect_witness :
  exists tail,
    log (snd (readPage dallas_crc8 (session_for rom_DS2502) [] 1
                redirecting_bus)) =
      log (found (session_for rom_DS2502) redirecting_bus)
      ++ [EvReset; EvSelect rom_DS2502; EvWrite READSTATUS false;
          EvWrite 2 false; EvWrite 0x00 false;
          EvRead (dallas_crc8 [READSTATUS; 2; 0x00]); EvRead 0x07;
          EvReset; EvSelect rom_DS2502; EvWrite READMEMORY false;
          EvWrite 0x07 false; EvWrite 0x00 false]
      ++ tail.
Proof.
  apply (readPage_eprom_redirect dallas_crc8 (session_for rom_DS2502) [] 1
           redirecting_bus (found (session_for rom_DS2502) redirecting_bus)
           (dallas_crc8 [READSTATUS; 2; 0x00]) 0x07 []).
  - reflexivity.
  - change (0 <= 1 < 4). lia.
  - reflexivity.
  - reflexivity.
  - reflexivity.
Defined.

Lemma scratchWrite_mismatch_no_commit_witness :
  fst (scratchWrite true (session_for rom_DS2431) [0x55] 1 128 corrupting_bus)
    = BAD_INTEGRITY /\
  commands (emitted (scratchWrite true (session_for rom_DS2431) [0x55] 1 128)
              corrupting_bus)
    = [WRITEMEMORY; READSTATUS] /\
  ~ In WRITESTATUS
      (commands (emitted (scratchWrite true (session_for rom_DS2431) [0x55] 1
                            128) corrupting_bus)) /\
  (forall v, ~ In (EvWrite v true)
               (emitted (scratchWrite true (session_for rom_DS2431) [0x55] 1
                           128) corrupting_bus)).
Proof.
  apply (scratchWrite_mismatch_no_commit true (session_for rom_DS2431) [0x55]
           1 128 corrupting_bus).
  - discriminate.
  - exists 0%nat. split.
    + change (0 < 1)%nat. lia.
    + discriminate.
Defined.

Lemma writePage_eeprom_four_commits_witness :
  fst (writePage dallas_crc8 true (session_for rom_DS2431) page_0_to_31 1
         committing_bus) = 0 /\
  exists w2 w3 w4 w5,
    scratchWrite true (session_for rom_DS2431)
      (firstn 8 (skipn 0 page_0_to_31)) 8 (1 * 32 + 0)
      (found (session_for rom_DS2431) committing_bus) = (0, w2) /\
    scratchWrite true (session_for rom_DS2431)
      (firstn 8 (skipn 8 page_0_to_31)) 8 (1 * 32 + 8) w2 = (0, w3) /\
    scratchWrite true (session_for rom_DS2431)
      (firstn 8 (skipn 16 page_0_to_31)) 8 (1 * 32 + 16) w3 = (0, w4) /\
    scratchWrite true (session_for rom_DS2431)
      (firstn 8 (skipn 24 page_0_to_31)) 8 (1 * 32 + 24) w4 = (0, w5).
Proof.
  destruct (writePage_eeprom_four_commits dallas_crc8 true
              (session_for rom_DS2431) page_0_to_31 1 committing_bus
              (found (session_for rom_DS2431) committing_bus))
    as [_ [Hzero _]].
  - change (0 <= 3). lia.
  - reflexivity.
  - change (0 <= 1 < 4). lia.
  - reflexivity.
  - reflexivity.
  - split; [ reflexivity | ]. apply Hzero. reflexivity.
Defined.

(** * Further properties: sessions *)

(** X1.  [isSupported] looks at the family code and at nothing else: it holds
    exactly for the five codes of the table. *)
Theorem isSupported_iff_family (deviceAddress : list Z) :
  isSupported deviceAddress = true <->
  In (byte_at deviceAddress 0) [0x09; 0x0B; 0x14; 0x2D; 0x23].
Proof.
  unfold isSupported. rewrite scan_models_table. cbn [In].
  repeat match goal with
         | |- context [if ?c =? ?k then _ else _] => destruct (Z.eqb_spec c k)
         end;
    split; intros H; try reflexivity; try discriminate H;
    intuition (try lia; try discriminate).
Qed.

(** X2.  After [setAddress], [getDeviceName] is the name the table gives to the
    family code of the address, and NULL for any other code. *)
Theorem getDeviceName_after_setAddress self (pAddress : list Z) :
  getDeviceName (setAddress self pAddress) =
    if byte_at pAddress 0 =? 0x09 then Some "DS2502"%string
    else if byte_at pAddress 0 =? 0x0B then Some "DS2505"%string
    else if byte_at pAddress 0 =? 0x14 then Some "DS2430"%string
    else if byte_at pAddress 0 =? 0x2D then Some "DS2431"%string
    else if byte_at pAddress 0 =? 0x23 then Some "DS2433"%string
    else None.
Proof.
  unfold setAddress. cbn [_addr with_addr with_index].
  rewrite byte_at_firstn by lia. rewrite scan_models_table.
  repeat match goal with
         | |- context [if ?c =? ?k then _ else _] => destruct (c =? k)
         end; reflexivity.
Qed.

(** X3.  [setAddress] keeps nothing of an earlier address or model: two calls in
    a row are the second call alone, and the programming pin stays. *)
Theorem setAddress_overwrites self (a b : list Z) :
  setAddress (setAddress self a) b = setAddress self b /\
  _progPin (setAddress self a) = _progPin self.
Proof.
  unfold setAddress. cbn [_addr _progPin with_addr with_index].
  split.
  - destruct (0 <=? scan_models _chip_model_list 0 (byte_at (firstn 8 a) 0));
      reflexivity.
  - destruct (0 <=? scan_models _chip_model_list 0 (byte_at (firstn 8 a) 0));
      reflexivity.
Qed.

Lemma find_split {A : Type} (f : A -> bool) (l : list A) (x : A) :
  find f l = Some x ->
  exists pre post,
    l = pre ++ x :: post /\ (forall y, In y pre -> f y = false) /\ f x = true.
Proof.
  induction l as [|y l IH]; [ discriminate | ].
  cbn [find]. destruct (f y) eqn:Ey.
  - intros H. inversion H. subst y. exists [], l.
    split; [ reflexivity | ]. split; [ intros z [] | exact Ey ].
  - intros H. destruct (IH H) as [pre [post [Hl [Hpre Hx]]]].
    exists (y :: pre), post. rewrite Hl.
    split; [ reflexivity | ]. split; [ | exact Hx ].
    intros z [<- | Hz]; [ exact Ey | apply Hpre, Hz ].
Qed.

Lemma supported_index (rom : list Z) :
  isSupported rom = true ->
  0 <= scan_models _chip_model_list 0 (byte_at rom 0) < 5 /\
  id (chip (scan_models _chip_model_list 0 (byte_at rom 0))) = byte_at rom 0.
Proof.
  unfold isSupported. intros H. apply Z.leb_le in H.
  pose proof (scan_models_range (byte_at rom 0)).
  split; [ lia | apply scan_models_found, H ].
Qed.

(** X4.  Both ways of choosing a device leave a consistent session, whatever the
    object held before: the index is -1, or it is inside the table and the
    entry's id is the family code of the stored address. *)
Theorem session_ok_established :
  (forall self pAddress, session_ok (setAddress self pAddress)) /\
  (forall self w, session_ok (snd (fst (search self w)))).
Proof.
  split.
  - intros self a. unfold session_ok, setAddress.
    cbn [_addr with_addr with_index].
    destruct (0 <=? scan_models _chip_model_list 0 (byte_at (firstn 8 a) 0))
      eqn:E; cbn [_addr _curModelIndex with_addr with_index].
    + right. apply (supported_index (firstn 8 a)). exact E.
    + left. reflexivity.
  - intros self w. unfold session_ok. rewrite search_spec.
    destruct (hd false (presence w)); [ | left; reflexivity ].
    destruct (find isSupported (hd [] (scans w))) as [rom|] eqn:Hfind;
      cbn [fst snd _addr _curModelIndex]; [ | left; reflexivity ].
    right. apply supported_index.
    destruct (find_split _ _ _ Hfind) as [pre [post [_ [_ Hrom]]]].
    exact Hrom.
Qed.

(** X5.  When [search] returns true, the bus answered the reset, the stored
    address is the first supported device of the pass, every device before
    it is unsupported, the index is that of its table entry, and the device
    has a name. *)
Theorem search_true_selects_first_supported self w :
  fst (fst (search self w)) = true ->
  hd false (presence w) = true /\
  (exists pre post,
     hd [] (scans w) = pre ++ _addr (snd (fst (search self w))) :: post /\
     forall rom, In rom pre -> isSupported rom = false) /\
  isSupported (_addr (snd (fst (search self w)))) = true /\
  0 <= _curModelIndex (snd (fst (search self w))) < 5 /\
  id (chip (_curModelIndex (snd (fst (search self w)))))
    = byte_at (_addr (snd (fst (search self w)))) 0 /\
  getDeviceName (snd (fst (search self w))) <> None /\
  _progPin (snd (fst (search self w))) = _progPin self.
Proof.
  rewrite search_spec.
  destruct (hd false (presence w)); [ | discriminate ].
  destruct (find isSupported (hd [] (scans w))) as [rom|] eqn:Hfind;
    [ | discriminate ].
  intros _. cbn [fst snd _addr _curModelIndex _progPin].
  destruct (find_split _ _ _ Hfind) as [pre [post [Hl [Hpre Hrom]]]].
  destruct (supported_index rom Hrom) as [Hrange Hid].
  split; [ reflexivity | ]. split; [ exists pre, post; split; assumption | ].
  split; [ exact Hrom | ]. split; [ exact Hrange | ]. split; [ exact Hid | ].
  split; [ | reflexivity ].
  unfold getDeviceName. cbn [_curModelIndex].
  set (i := scan_models _chip_model_list 0 (byte_at rom 0)) in *.
  assert (i = 0 \/ i = 1 \/ i = 2 \/ i = 3 \/ i = 4) as Hi by lia.
  destruct Hi as [Hi | [Hi | [Hi | [Hi | Hi]]]]; rewrite Hi; discriminate.
Qed.

(** ** isConnected *)

Lemma memcmp8_eq_refl (a : list Z) : memcmp8_eq a a = true.
Proof.
  unfold memcmp8_eq. apply forallb_forall. intros i _. apply Z.eqb_refl.
Qed.

(** X6.  On ROM codes, [memcmp(a, b, 8) == 0] is equality. *)
Theorem memcmp8_eq_iff (a b : list Z) :
  is_rom a -> is_rom b ->
  (memcmp8_eq a b = true <-> a = b).
Proof.
  intros [Hla Ha] [Hlb Hb].
  split; [ | intros ->; apply memcmp8_eq_refl ].
  do 8 (destruct a as [|? a]; [ discriminate Hla | ]).
  destruct a; [ | discriminate Hla ].
  do 8 (destruct b as [|? b]; [ discriminate Hlb | ]).
  destruct b; [ | discriminate Hlb ].
  repeat match goal with
         | H : Forall _ (_ :: _) |- _ => inversion H; subst; clear H
         end.
  unfold memcmp8_eq, byte_at. cbn [seq forallb nth].
  rewrite !u8_small by assumption.
  rewrite !andb_true_iff, !Z.eqb_eq.
  intros H. decompose [and] H. subst. reflexivity.
Qed.

(** The loop of [isConnected] on a pass that has [devs] left. *)
Lemma isConnected_loop_spec (devs : list (list Z)) :
  forall fuel self w,
    cursor w = devs ->
    (List.length devs < fuel)%nat ->
    fst (isConnected_loop fuel self w)
      = existsb (memcmp8_eq (_addr self)) devs /\
    rx (snd (isConnected_loop fuel self w)) = rx w /\
    exists k, log (snd (isConnected_loop fuel self w))
              = log w ++ repeat EvSearch k.
Proof.
  induction devs as [|rom rest IH]; intros fuel self w Hcur Hfuel;
    (destruct fuel as [|fuel]; [ inversion Hfuel | ]);
    cbn [isConnected_loop]; unfold bind, ow_search; rewrite Hcur.
  - bus. split; [ reflexivity | ]. split; [ reflexivity | ].
    exists 1%nat. reflexivity.
  - cbn [existsb]. destruct (memcmp8_eq (_addr self) rom); bus.
    + split; [ reflexivity | ]. split; [ reflexivity | ].
      exists 1%nat. reflexivity.
    + match goal with
      | |- context [isConnected_loop fuel self ?w1] =>
          destruct (IH fuel self w1) as [Hres [Hrx [k Hlog]]];
            [ reflexivity | simpl in Hfuel; lia | ]
      end.
      split; [ exact Hres | ]. split; [ exact Hrx | ].
      exists (S k). rewrite Hlog. bus. rewrite <- app_assoc. reflexivity.
Qed.

Lemma isConnected_spec self w :
  fst (isConnected self w)
    = hd false (presence w)
      && existsb (memcmp8_eq (_addr self)) (hd [] (scans w)) /\
  rx (snd (isConnected self w)) = rx w /\
  exists k, log (snd (isConnected self w))
            = log w ++ EvReset
                :: (if hd false (presence w)
                    then EvResetSearch :: repeat EvSearch k else []).
Proof.
  unfold isConnected, bind, ow_reset, ow_reset_search.
  destruct (hd false (presence w)); cbn [negb andb].
  - match goal with
    | |- context [isConnected_loop ?f self ?w1] =>
        destruct (isConnected_loop_spec (hd [] (scans w)) f self w1)
          as [Hres [Hrx [k Hlog]]]; [ reflexivity | bus; lia | ]
    end.
    split; [ exact Hres | ]. split; [ exact Hrx | ].
    exists k. rewrite Hlog. bus. rewrite <- !app_assoc. reflexivity.
  - bus. split; [ reflexivity | ]. split; [ reflexivity | ].
    exists 0%nat. reflexivity.
Qed.

(** X7.  [isConnected] is true exactly when the bus answers the reset and the
    fresh search pass enumerates an address whose 8 bytes equal the stored
    ones. *)
Theorem isConnected_iff self w :
  fst (isConnected self w) = true <->
  hd false (presence w) = true /\
  exists rom, In rom (hd [] (scans w)) /\
              memcmp8_eq (_addr self) rom = true.
Proof.
  destruct (isConnected_spec self w) as [Hres _]. rewrite Hres.
  rewrite andb_true_iff, existsb_exists. reflexivity.
Qed.

(** X8.  [isConnected] only resets and searches: it selects no device, writes and
    reads no byte, and leaves the answers of the devices where they were. *)
Theorem isConnected_passive self w :
  rx (snd (isConnected self w)) = rx w /\
  (forall e, In e (emitted (isConnected self) w) ->
             e = EvReset \/ e = EvResetSearch \/ e = EvSearch).
Proof.
  destruct (isConnected_spec self w) as [_ [Hrx [k Hlog]]].
  split; [ exact Hrx | ].
  rewrite (emitted_of_log _ _ _ Hlog). intros e [<- | He]; [ tauto | ].
  destruct (hd false (presence w)); [ | destruct He ].
  destruct He as [<- | He]; [ tauto | ].
  apply repeat_spec in He. tauto.
Qed.

(** X9.  A device that [search] has just selected is connected, as long as the
    next pass answers the reset and enumerates the same devices. *)
Theorem search_then_isConnected self w :
  fst (fst (search self w)) = true ->
  hd false (presence (snd (search self w))) = true ->
  hd [] (scans (snd (search self w))) = hd [] (scans w) ->
  fst (isConnected (snd (fst (search self w))) (snd (search self w))) = true.
Proof.
  intros Hfound Hpresent Hsame.
  destruct (isConnected_spec (snd (fst (search self w))) (snd (search self w)))
    as [Hres _].
  rewrite Hres, Hpresent, Hsame. cbn [andb].
  apply existsb_exists.
  exists (_addr (snd (fst (search self w)))).
  split; [ | apply memcmp8_eq_refl ].
  revert Hfound. rewrite search_spec.
  destruct (hd false (presence w)); [ | discriminate ].
  destruct (find isSupported (hd [] (scans w))) as [rom|] eqn:Hfind;
    [ | discriminate ].
  intros _. cbn [fst snd _addr].
  destruct (find_split _ _ _ Hfind) as [pre [post [Hl _]]].
  rewrite Hl. apply in_or_app. right. left. reflexivity.
Qed.

(** * Further properties: page operations *)

Lemma pulse_spec self w :
  pulse self w =
    (tt, {| presence := presence w; scans := scans w; cursor := cursor w;
            rx := rx w; log := log w ++ pulse_events self |}).
Proof.
  unfold pulse, pulse_events, bind, digitalWrite, delayMicroseconds, ret, emit.
  destruct (0 <=? _progPin self); bus; rewrite <- ?app_assoc; reflexivity.
Qed.

Lemma answers_length (n : nat) : forall rx, List.length (answers n rx) = n.
Proof.
  induction n as [|n IH]; intros rx; [ reflexivity | ].
  cbn [answers List.length]. rewrite IH. reflexivity.
Qed.

(** When the devices have [n] bytes to give, these are the bytes read. *)
Lemma answers_firstn (n : nat) :
  forall rx, (n <= List.length rx)%nat -> answers n rx = map u8 (firstn n rx).
Proof.
  induction n as [|n IH]; intros rx Hn; [ reflexivity | ].
  destruct rx as [|x rx]; [ inversion Hn | ].
  cbn [answers hd tl firstn map]. rewrite IH by (cbn in Hn; lia).
  reflexivity.
Qed.

Lemma ow_read_bytes_spec (n : nat) :
  forall w,
    ow_read_bytes n w =
      (answers n (rx w),
       {| presence := presence w; scans := scans w; cursor := cursor w;
          rx := skipn n (rx w);
          log := log w ++ map EvRead (answers n (rx w)) |}).
Proof.
  induction n as [|n IH]; intros w.
  - cbn [ow_read_bytes answers map skipn]. unfold ret. rewrite app_nil_r.
    destruct w; reflexivity.
  - cbn [ow_read_bytes]. unfold bind. bus. rewrite IH. bus.
    cbn [answers map]. rewrite <- app_assoc.
    destruct (rx w); cbn [hd tl skipn]; rewrite ?skipn_nil; reflexivity.
Qed.

(** The verify loop on a scratchpad that echoes what was sent. *)
Lemma scratch_verify_match data (n : nat) :
  forall i w rest,
    rx w = map (byte_at data) (seq i n) ++ rest ->
    scratch_verify data i n w =
      (true, {| presence := presence w; scans := scans w; cursor := cursor w;
                rx := rest;
                log := log w ++ map EvRead (map (byte_at data) (seq i n)) |}).
Proof.
  induction n as [|n IH]; intros i w rest Hrx.
  - cbn [scratch_verify seq map app] in *. unfold ret. rewrite app_nil_r.
    destruct w; cbn [rx] in Hrx; subst; reflexivity.
  - cbn [scratch_verify]. unfold bind. bus. rewrite Hrx.
    cbn [seq map app hd tl]. rewrite byte_at_idem, Z.eqb_refl. bus.
    rewrite (IH (S i) _ rest) by reflexivity. bus.
    rewrite <- app_assoc. reflexivity.
Qed.

Section Coverage.

Variable crc8 : list Z -> Z.
Variable literals_merged : bool.

(** X10.  A page the validator rejects causes no traffic at all: the four
    operations return with the bus, the pins and the buffer untouched. *)
Theorem rejected_page_no_traffic self data page w :
  isPageValid self page = false ->
  readPage crc8 self data page w = (INVALID_PAGE, data, w) /\
  writePage crc8 literals_merged self data page w = (INVALID_PAGE, w) /\
  lockPage crc8 literals_merged self page w = (INVALID_PAGE, w) /\
  snd (isPageLocked crc8 self page w) = w.
Proof.
  intros H. unfold readPage, writePage, lockPage, isPageLocked.
  rewrite H. repeat split.
Qed.

(** X11.  With a valid page and the device not found by the rescan, [readPage],
    [writePage] and [lockPage] return [DEVICE_DISCONNECTED]; the buffer is
    as it was, nothing beyond the rescan was done and no answer of a device
    was consumed. *)
Theorem disconnected_device_status self data page w :
  isPageValid self page = true ->
  fst (isConnected self w) = false ->
  readPage crc8 self data page w
    = (DEVICE_DISCONNECTED, data, snd (isConnected self w)) /\
  writePage crc8 literals_merged self data page w
    = (DEVICE_DISCONNECTED, snd (isConnected self w)) /\
  lockPage crc8 literals_merged self page w
    = (DEVICE_DISCONNECTED, snd (isConnected self w)) /\
  rx (snd (isConnected self w)) = rx w.
Proof.
  intros Hv Hc.
  destruct (isConnected_spec self w) as [_ [Hrx _]].
  unfold readPage, writePage, lockPage, bind. rewrite Hv. cbn [negb].
  destruct (isConnected self w) as [c w1]. cbn [fst snd] in *. subst c.
  repeat split. exact Hrx.
Qed.

Lemma readPage_outcome self data page w :
  (fst (fst (readPage crc8 self data page w)) = 0 /\
   exists bytes, List.length bytes = 32%nat /\
                 snd (fst (readPage crc8 self data page w))
                   = bytes ++ skipn 32 data) \/
  (In (fst (fst (readPage crc8 self data page w)))
      [INVALID_PAGE; DEVICE_DISCONNECTED; CRC_MISMATCH] /\
   snd (fst (readPage crc8 self data page w)) = data).
Proof.
  assert (forall w0,
            fst (fst (let (d, w') := read_into data w0 in ret (0, d) w')) = 0 /\
            exists bytes, List.length bytes = 32%nat /\
              snd (fst (let (d, w') := read_into data w0 in ret (0, d) w'))
                = bytes ++ skipn 32 data) as Hread.
  { intros w0. unfold read_into, bind. rewrite ow_read_bytes_spec. bus.
    split; [ reflexivity | ].
    exists (answers 32 (rx w0)). split; [ apply answers_length | reflexivity ]. }
  unfold readPage, bind.
  destruct (isPageValid self page); cbn [negb];
    [ | right; split; [ cbn [In fst ret]; tauto | reflexivity ] ].
  destruct (isConnected self w) as [[|] w1]; bus;
    [ | right; split; [ cbn [In]; tauto | reflexivity ] ].
  destruct (readPage_redirect crc8 self page (uint (page * 32)) w1)
    as [[status|address] w2] eqn:E.
  - apply readPage_redirect_status in E. subst status.
    right. split; [ cbn [In fst ret]; tauto | reflexivity ].
  - bus. destruct (isEPROMDevice self); bus.
    + destruct (negb (_ =? _)); bus.
      * right. split; [ cbn [In]; tauto | reflexivity ].
      * left. apply Hread.
    + left. apply Hread.
Qed.

(** X12.  [readPage] ends in 0, [INVALID_PAGE], [DEVICE_DISCONNECTED] or
    [CRC_MISMATCH]; on 0 the first 32 bytes of the buffer are replaced and
    the rest kept; on any other status the buffer is as it was. *)
Theorem readPage_buffer self data page w :
  In (fst (fst (readPage crc8 self data page w)))
     [0; INVALID_PAGE; DEVICE_DISCONNECTED; CRC_MISMATCH] /\
  (fst (fst (readPage crc8 self data page w)) <> 0 ->
   snd (fst (readPage crc8 self data page w)) = data) /\
  (fst (fst (readPage crc8 self data page w)) = 0 ->
   exists bytes, List.length bytes = 32%nat /\
                 snd (fst (readPage crc8 self data page w))
                   = bytes ++ skipn 32 data).
Proof.
  destruct (readPage_outcome self data page w) as [[H0 Hb] | [Hin Hd]].
  - split; [ left; symmetry; exact H0 | ].
    split; [ intros H; contradiction | intros _; exact Hb ].
  - split; [ right; exact Hin | ].
    split; [ intros _; exact Hd | ].
    intros H0. rewrite H0 in Hin. cbn [In] in Hin.
    destruct Hin as [H | [H | [H | []]]]; discriminate H.
Qed.

Lemma writePage_status self data page w :
  In (fst (writePage crc8 literals_merged self data page w))
     [0; INVALID_PAGE; DEVICE_DISCONNECTED; CRC_MISMATCH; COPY_FAILURE;
      BAD_INTEGRITY].
Proof.
  unfold writePage, bind.
  destruct (isPageValid self page); cbn [negb]; [ | cbn [In fst ret]; tauto ].
  destruct (isConnected self w) as [[|] w1]; bus; [ | cbn [In]; tauto ].
  destruct (isEPROMDevice self); bus.
  - destruct (negb (_ =? _)); bus; [ cbn [In]; tauto | ].
    rewrite pulse_spec. bus.
    destruct (negb (_ =? _)); bus; [ cbn [In]; tauto | ].
    match goal with
    | |- In (fst (writePage_burn ?f ?s ?d ?i ?w)) _ =>
        pose proof (writePage_burn_status f s d i w) as Hs
    end.
    cbn [In] in *. tauto.
  - pose proof (writePage_chunks_status literals_merged 32 self data
                  (uint (page * 32)) 0 w1) as Hs.
    cbn [In] in *. tauto.
Qed.

Lemma lockPage_status self page w :
  In (fst (lockPage crc8 literals_merged self page w))
     [0; INVALID_PAGE; DEVICE_DISCONNECTED; CRC_MISMATCH].
Proof.
  unfold lockPage, bind.
  destruct (isPageValid self page); cbn [negb]; [ | cbn [In fst ret]; tauto ].
  destruct (isConnected self w) as [[|] w1]; bus; [ | cbn [In]; tauto ].
  destruct (isEPROMDevice self); bus.
  - destruct (negb (_ =? _)); bus; [ cbn [In]; tauto | ].
    rewrite pulse_spec. cbn [In fst ret]. tauto.
  - destruct (scratchWrite _ _ _ _ _ _) as [status w2]. cbn [In fst ret]. tauto.
Qed.

(** X13.  The statuses of [writePage] and [lockPage]: [PAGE_LOCKED] and
    [UNSUPPORTED_DEVICE] are never returned, and [lockPage] never reports
    [BAD_INTEGRITY] or [COPY_FAILURE]. *)
Theorem write_lock_statuses self data page w :
  In (fst (writePage crc8 literals_merged self data page w))
     [0; INVALID_PAGE; DEVICE_DISCONNECTED; CRC_MISMATCH; COPY_FAILURE;
      BAD_INTEGRITY] /\
  In (fst (lockPage crc8 literals_merged self page w))
     [0; INVALID_PAGE; DEVICE_DISCONNECTED; CRC_MISMATCH] /\
  fst (writePage crc8 literals_merged self data page w) <> PAGE_LOCKED /\
  fst (writePage crc8 literals_merged self data page w) <> UNSUPPORTED_DEVICE /\
  fst (lockPage crc8 literals_merged self page w) <> PAGE_LOCKED /\
  fst (lockPage crc8 literals_merged self page w) <> UNSUPPORTED_DEVICE.
Proof.
  pose proof (writePage_status self data page w) as Hw.
  pose proof (lockPage_status self page w) as Hl.
  split; [ exact Hw | ]. split; [ exact Hl | ].
  cbn [In] in Hw, Hl.
  repeat split; intros H; rewrite H in *;
    repeat match goal with
           | H : _ \/ _ |- _ => destruct H as [H | H]
           end; try discriminate; contradiction.
Qed.

Lemma eprom_resolved self :
  isEPROMDevice self = true -> 0 <= _curModelIndex self.
Proof.
  unfold isEPROMDevice.
  destruct (0 <=? _curModelIndex self) eqn:E; [ | discriminate ].
  intros _. apply Z.leb_le, E.
Qed.

Lemma page_in_range_valid self page :
  0 <= _curModelIndex self ->
  page < pages (chip (_curModelIndex self)) ->
  isPageValid self page = true.
Proof. intros Hi Hp. apply isPageValid_iff. split; assumption. Qed.

(** ** readPage *)

(** X14.  On an EEPROM, [readPage] of a valid page on a connected device always
    succeeds: it sends [{READMEMORY, low, high}] for [page * 32], checks no
    CRC, and the buffer receives the next 32 bytes the device delivers (0xFF
    for each byte an idle bus delivers). *)
Theorem readPage_eeprom self data page w w1 :
  0 <= _curModelIndex self ->
  isEPROMDevice self = false ->
  0 <= page < pages (chip (_curModelIndex self)) ->
  isConnected self w = (true, w1) ->
  readPage crc8 self data page w =
    (0, answers 32 (rx w1) ++ skipn 32 data,
     {| presence := tl (presence w1); scans := scans w1; cursor := cursor w1;
        rx := skipn 32 (rx w1);
        log := log w1
               ++ [EvReset; EvSelect (_addr self); EvWrite READMEMORY false;
                   EvWrite ((page * 32) mod 256) false;
                   EvWrite ((page * 32) / 256) false]
               ++ map EvRead (answers 32 (rx w1)) |}).
Proof.
  intros Hi He Hp Hc.
  pose proof (valid_page_offset self page Hp) as Hoff.
  unfold readPage, readPage_redirect, read_into, bind.
  rewrite (page_in_range_valid self page Hi) by lia. cbn [negb].
  rewrite Hc. cbn [negb]. rewrite He. bus.
  rewrite ow_read_bytes_spec. bus.
  rewrite uint_small by exact Hoff. rewrite !u8_idem.
  rewrite (high_byte_small (page * 32)) by exact Hoff.
  change (u8 (page * 32)) with ((page * 32) mod 256).
  rewrite <- !app_assoc. reflexivity.
Qed.

(** X15.  On an EPROM, when the byte read after the status command is not the
    CRC of that command, [readPage] returns [CRC_MISMATCH] on the spot: the
    buffer is as it was and no memory-read command was sent. *)
Theorem readPage_eprom_status_crc_mismatch self data page w w1 :
  isEPROMDevice self = true ->
  isPageValid self page = true ->
  isConnected self w = (true, w1) ->
  u8 (hd 0xFF (rx w1)) <> u8 (crc8 [READSTATUS; u8 (page + 1); 0x00]) ->
  fst (readPage crc8 self data page w) = (CRC_MISMATCH, data) /\
  log (snd (readPage crc8 self data page w)) =
    log w1 ++ [EvReset; EvSelect (_addr self); EvWrite READSTATUS false;
               EvWrite (u8 (page + 1)) false; EvWrite 0x00 false;
               EvRead (u8 (hd 0xFF (rx w1)))].
Proof.
  intros He Hv Hc Hcrc.
  unfold readPage, readPage_redirect, bind.
  rewrite Hv. cbn [negb]. rewrite Hc. cbn [negb]. rewrite He. bus.
  destruct (u8 (crc8 _) =? _) eqn:E.
  - apply Z.eqb_eq in E. symmetry in E. contradiction.
  - bus. rewrite !u8_idem, <- !app_assoc. split; reflexivity.
Qed.

(** ** writePage on an EPROM *)

Lemma writePage_burn_ok (ack : nat -> Z) self data (n : nat) :
  forall fuel i w rest,
    (n <= fuel)%nat ->
    (i + n = 32)%nat ->
    rx w = burn_answers ack data i n ++ rest ->
    fst (writePage_burn fuel self data (Z.of_nat i) w) = 0 /\
    rx (snd (writePage_burn fuel self data (Z.of_nat i) w)) = rest.
Proof.
  induction n as [|n IH]; intros fuel i w rest Hfuel Hi Hrx.
  - replace i with 32%nat by lia. cbn [burn_answers seq flat_map app] in Hrx.
    destruct fuel; cbn [writePage_burn].
    + split; [ reflexivity | exact Hrx ].
    + change (Z.of_nat 32 <? 32) with false. split; [ reflexivity | exact Hrx ].
  - destruct fuel as [|fuel]; [ inversion Hfuel | ].
    cbn [writePage_burn].
    replace (Z.of_nat i <? 32) with true by (symmetry; apply Z.ltb_lt; lia).
    unfold bind. bus. rewrite pulse_spec. bus.
    rewrite Nat2Z.id, Hrx.
    cbn [burn_answers seq flat_map app hd tl].
    rewrite byte_at_idem, Z.eqb_refl. cbn [negb].
    replace (Z.of_nat i + 1) with (Z.of_nat (S i)) by lia.
    apply IH; [ lia | lia | reflexivity ].
Qed.

Lemma writePage_burn_stops (ack : nat -> Z) self data (k : nat) :
  forall fuel i w a bad rest,
    (k < fuel)%nat ->
    (i + k < 32)%nat ->
    rx w = burn_answers ack data i k ++ a :: bad :: rest ->
    u8 bad <> byte_at data (i + k) ->
    fst (writePage_burn fuel self data (Z.of_nat i) w) = COPY_FAILURE /\
    rx (snd (writePage_burn fuel self data (Z.of_nat i) w)) = rest.
Proof.
  induction k as [|k IH]; intros fuel i w a bad rest Hfuel Hi Hrx Hbad;
    (destruct fuel as [|fuel]; [ inversion Hfuel | ]);
    cbn [writePage_burn];
    replace (Z.of_nat i <? 32) with true by (symmetry; apply Z.ltb_lt; lia);
    unfold bind; bus; rewrite pulse_spec; bus; rewrite Nat2Z.id, Hrx.
  - cbn [burn_answers seq flat_map app hd tl].
    rewrite Nat.add_0_r in Hbad.
    destruct (byte_at data i =? u8 bad) eqn:E.
    + apply Z.eqb_eq in E. symmetry in E. contradiction.
    + bus. split; reflexivity.
  - cbn [burn_answers seq flat_map app hd tl].
    rewrite byte_at_idem, Z.eqb_refl. cbn [negb].
    replace (Z.of_nat i + 1) with (Z.of_nat (S i)) by lia.
    apply (IH fuel (S i) _ a bad rest); [ lia | lia | reflexivity | ].
    replace (S i + k)%nat with (i + S k)%nat by lia. exact Hbad.
Qed.

(** X16.  On an EPROM, when the device acknowledges the write command with its
    CRC and reads every byte back as written, [writePage] returns 0 having
    consumed exactly the answers of the 32 bytes. *)
Theorem writePage_eprom_success (ack : nat -> Z) self data page w w1 c rest :
  isEPROMDevice self = true ->
  0 <= page < pages (chip (_curModelIndex self)) ->
  isConnected self w = (true, w1) ->
  rx w1 = c :: byte_at data 0 :: burn_answers ack data 1 31 ++ rest ->
  u8 c = u8 (crc8 [WRITEMEMORY; (page * 32) mod 256; (page * 32) / 256;
                   byte_at data 0]) ->
  fst (writePage crc8 literals_merged self data page w) = 0 /\
  rx (snd (writePage crc8 literals_merged self data page w)) = rest.
Proof.
  intros He Hp Hc Hrx Hcrc.
  pose proof (valid_page_offset self page Hp) as Hoff.
  unfold writePage, bind.
  rewrite (page_in_range_valid self page (eprom_resolved self He)) by lia.
  cbn [negb]. rewrite Hc. cbn [negb]. rewrite He. bus.
  rewrite Hrx. bus.
  rewrite uint_small by exact Hoff.
  rewrite (high_byte_small (page * 32)) by exact Hoff.
  change (u8 (page * 32)) with ((page * 32) mod 256).
  rewrite <- Hcrc, Z.eqb_refl. bus.
  rewrite pulse_spec. bus.
  rewrite byte_at_idem, Z.eqb_refl. bus.
  apply (writePage_burn_ok ack self data 31 32 1%nat); [ lia | lia | reflexivity ].
Qed.

(** X17.  On an EPROM, when the byte read after the write command is not its
    CRC, [writePage] returns [CRC_MISMATCH] before any programming pulse:
    nothing was done on the pins and no second byte was sent. *)
Theorem writePage_eprom_crc_mismatch self data page w w1 :
  isEPROMDevice self = true ->
  isPageValid self page = true ->
  isConnected self w = (true, w1) ->
  u8 (hd 0xFF (rx w1))
    <> u8 (crc8 [WRITEMEMORY; u8 (uint (page * 32));
                 u8 (Z.shiftr (uint (page * 32)) 8); byte_at data 0]) ->
  fst (writePage crc8 literals_merged self data page w) = CRC_MISMATCH /\
  log (snd (writePage crc8 literals_merged self data page w)) =
    log w1 ++ [EvReset; EvSelect (_addr self); EvWrite WRITEMEMORY false;
               EvWrite (u8 (uint (page * 32))) false;
               EvWrite (u8 (Z.shiftr (uint (page * 32)) 8)) false;
               EvWrite (byte_at data 0) false;
               EvRead (u8 (hd 0xFF (rx w1)))].
Proof.
  intros He Hv Hc Hcrc.
  unfold writePage, bind.
  rewrite Hv. cbn [negb]. rewrite Hc. cbn [negb]. rewrite He. bus.
  destruct (u8 (crc8 _) =? _) eqn:E.
  - apply Z.eqb_eq in E. symmetry in E. contradiction.
  - bus. rewrite !u8_idem, byte_at_idem, <- !app_assoc. split; reflexivity.
Qed.

(** X18.  On an EPROM, the first byte read back that differs from the byte
    written ends [writePage] with [COPY_FAILURE]: the bytes after it are not
    sent, and the answers of the device after that byte are not consumed.
    [k] counts the bytes burnt correctly after byte 0. *)
Theorem writePage_eprom_copy_failure (ack : nat -> Z) self data page w w1 c
    (k : nat) a bad rest :
  isEPROMDevice self = true ->
  0 <= page < pages (chip (_curModelIndex self)) ->
  isConnected self w = (true, w1) ->
  (k < 31)%nat ->
  rx w1 = c :: byte_at data 0 :: burn_answers ack data 1 k
            ++ a :: bad :: rest ->
  u8 c = u8 (crc8 [WRITEMEMORY; (page * 32) mod 256; (page * 32) / 256;
                   byte_at data 0]) ->
  u8 bad <> byte_at data (1 + k) ->
  fst (writePage crc8 literals_merged self data page w) = COPY_FAILURE /\
  rx (snd (writePage crc8 literals_merged self data page w)) = rest.
Proof.
  intros He Hp Hc Hk Hrx Hcrc Hbad.
  pose proof (valid_page_offset self page Hp) as Hoff.
  unfold writePage, bind.
  rewrite (page_in_range_valid self page (eprom_resolved self He)) by lia.
  cbn [negb]. rewrite Hc. cbn [negb]. rewrite He. bus.
  rewrite Hrx. bus.
  rewrite uint_small by exact Hoff.
  rewrite (high_byte_small (page * 32)) by exact Hoff.
  change (u8 (page * 32)) with ((page * 32) mod 256).
  rewrite <- Hcrc, Z.eqb_refl. bus.
  rewrite pulse_spec. bus.
  rewrite byte_at_idem, Z.eqb_refl. bus.
  apply (writePage_burn_stops ack self data k 32 1%nat _ a bad rest);
    [ lia | lia | reflexivity | exact Hbad ].
Qed.

(** X19.  On an EPROM, a first byte that reads back wrong ends [writePage] with
    [COPY_FAILURE] after one programming pulse and before byte 1 is sent. *)
Theorem writePage_eprom_first_byte_failure self data page w w1 c bad rest :
  isEPROMDevice self = true ->
  isPageValid self page = true ->
  isConnected self w = (true, w1) ->
  rx w1 = c :: bad :: rest ->
  u8 c = u8 (crc8 [WRITEMEMORY; u8 (uint (page * 32));
                   u8 (Z.shiftr (uint (page * 32)) 8); byte_at data 0]) ->
  u8 bad <> byte_at data 0 ->
  fst (writePage crc8 literals_merged self data page w) = COPY_FAILURE /\
  log (snd (writePage crc8 literals_merged self data page w)) =
    log w1 ++ [EvReset; EvSelect (_addr self); EvWrite WRITEMEMORY false;
               EvWrite (u8 (uint (page * 32))) false;
               EvWrite (u8 (Z.shiftr (uint (page * 32)) 8)) false;
               EvWrite (byte_at data 0) false; EvRead (u8 c)]
          ++ pulse_events self ++ [EvRead (u8 bad)].
Proof.
  intros He Hv Hc Hrx Hcrc Hbad.
  unfold writePage, bind.
  rewrite Hv. cbn [negb]. rewrite Hc. cbn [negb]. rewrite He. bus.
  rewrite Hrx. bus.
  rewrite <- Hcrc, Z.eqb_refl. bus.
  rewrite pulse_spec. bus.
  destruct (byte_at data 0 =? u8 bad) eqn:E.
  - apply Z.eqb_eq in E. symmetry in E. contradiction.
  - bus. rewrite !u8_idem, byte_at_idem, <- !app_assoc. split; reflexivity.
Qed.

(** ** lockPage and isPageLocked on an EPROM *)

(** X20.  On an EPROM, [lockPage] pulses the programming pin only after the
    device has acknowledged the command with its CRC: on a mismatch it
    returns [CRC_MISMATCH] with nothing done on the pins, otherwise it issues
    one pulse and returns 0 without reading anything back. *)
Theorem lockPage_eprom_outcome self page w w1 :
  isEPROMDevice self = true ->
  isPageValid self page = true ->
  isConnected self w = (true, w1) ->
  fst (lockPage crc8 literals_merged self page w) =
    (if u8 (crc8 [WRITESTATUS; 0x00; 0x00; lock_mask page])
        =? u8 (hd 0xFF (rx w1))
     then 0 else CRC_MISMATCH) /\
  log (snd (lockPage crc8 literals_merged self page w)) =
    log w1 ++ [EvReset; EvSelect (_addr self); EvWrite WRITESTATUS false;
               EvWrite 0x00 false; EvWrite 0x00 false;
               EvWrite (lock_mask page) false; EvRead (u8 (hd 0xFF (rx w1)))]
          ++ (if u8 (crc8 [WRITESTATUS; 0x00; 0x00; lock_mask page])
                 =? u8 (hd 0xFF (rx w1))
              then pulse_events self else []) /\
  rx (snd (lockPage crc8 literals_merged self page w)) = tl (rx w1).
Proof.
  intros He Hv Hc. unfold lockPage, bind.
  rewrite Hv. cbn [negb]. rewrite Hc. cbn [negb]. rewrite He. bus.
  replace (u8 (lock_mask page)) with (lock_mask page)
    by (unfold lock_mask; symmetry; apply u8_idem).
  destruct (u8 (crc8 _) =? _); bus.
  - rewrite pulse_spec. bus. rewrite <- !app_assoc.
    split; [ reflexivity | ]. split; reflexivity.
  - rewrite <- !app_assoc, app_nil_r.
    split; [ reflexivity | ]. split; reflexivity.
Qed.

(** X21.  For pages 0 to 7 the EPROM lock command carries the mask [2 ^ page],
    whose only set bit is the bit numbered [page]. *)
Theorem lockPage_eprom_single_bit self page w w1 :
  isEPROMDevice self = true ->
  isPageValid self page = true ->
  0 <= page < 8 ->
  isConnected self w = (true, w1) ->
  (forall n, Z.testbit (2 ^ page) n = (page =? n)) /\
  exists tail,
    log (snd (lockPage crc8 literals_merged self page w)) =
      log w1 ++ [EvReset; EvSelect (_addr self); EvWrite WRITESTATUS false;
                 EvWrite 0x00 false; EvWrite 0x00 false;
                 EvWrite (2 ^ page) false] ++ tail.
Proof.
  intros He Hv Hp Hc.
  destruct (lock_mask_below_8 page Hp) as [Hmask Hbits].
  split; [ intros n; rewrite <- Hmask; apply Hbits | ].
  destruct (lockPage_eprom_command crc8 literals_merged self page w w1 He Hv Hc)
    as [tail Ht].
  exists tail. rewrite Ht, Hmask. reflexivity.
Qed.

Lemma bit_of_status (status page : Z) :
  0 <= page ->
  bool_of_int (Z.land 1 (Z.shiftr status page)) = Z.testbit status page.
Proof.
  intros Hp. unfold bool_of_int.
  rewrite Z.land_comm. change 1 with (Z.ones 1) at 1.
  rewrite Z.land_ones by lia. change (2 ^ 1) with 2.
  rewrite Zmod_odd.
  replace (Z.testbit status page) with (Z.odd (Z.shiftr status page)).
  - destruct (Z.odd (Z.shiftr status page)); reflexivity.
  - rewrite <- Z.bit0_odd, Z.shiftr_spec by lia. reflexivity.
Qed.

Lemma isPageLocked_eprom_run self page w w1 c status rest :
  isEPROMDevice self = true ->
  isPageValid self page = true ->
  isConnected self w = (true, w1) ->
  rx w1 = c :: status :: rest ->
  u8 c = u8 (crc8 [READSTATUS; 0x00; 0x00]) ->
  isPageLocked crc8 self page w =
    (bool_of_int (Z.land 1 (Z.shiftr (u8 status) page)),
     {| presence := tl (tl (presence w1)); scans := scans w1;
        cursor := cursor w1; rx := rest;
        log := log w1
               ++ [EvReset; EvSelect (_addr self); EvWrite READSTATUS false;
                   EvWrite 0x00 false; EvWrite 0x00 false;
                   EvRead (u8 c); EvRead (u8 status); EvReset] |}).
Proof.
  intros He Hv Hc Hrx Hcrc. unfold isPageLocked, bind.
  rewrite Hv. cbn [negb]. rewrite Hc. cbn [negb]. rewrite He. bus.
  rewrite Hrx. bus. rewrite <- Hcrc, Z.eqb_refl. bus.
  unfold ret, emit. bus. rewrite <- !app_assoc. reflexivity.
Qed.

(** X22.  On an EPROM, for a valid page below 16 (where the shift of the
    source is defined), once the status command is acknowledged with its
    CRC, [isPageLocked] returns bit [page] of the status byte read next, and
    ends with a reset of the bus. *)
Theorem isPageLocked_eprom_bit self page w w1 c status rest :
  isEPROMDevice self = true ->
  0 <= page < pages (chip (_curModelIndex self)) ->
  page < 16 ->
  isConnected self w = (true, w1) ->
  rx w1 = c :: status :: rest ->
  u8 c = u8 (crc8 [READSTATUS; 0x00; 0x00]) ->
  fst (isPageLocked crc8 self page w) = Z.testbit (u8 status) page /\
  rx (snd (isPageLocked crc8 self page w)) = rest /\
  log (snd (isPageLocked crc8 self page w)) =
    log w1 ++ [EvReset; EvSelect (_addr self); EvWrite READSTATUS false;
               EvWrite 0x00 false; EvWrite 0x00 false;
               EvRead (u8 c); EvRead (u8 status); EvReset].
Proof.
  intros He Hp _ Hc Hrx Hcrc.
  rewrite (isPageLocked_eprom_run self page w w1 c status rest He
             (page_in_range_valid self page (eprom_resolved self He)
                (proj2 Hp)) Hc Hrx Hcrc).
  cbn [fst snd rx log].
  split; [ apply bit_of_status; lia | ]. split; reflexivity.
Qed.

(** X23.  The status byte has eight bits: for pages 8 to 15, which the
    DS2505 allows and where the shift of the source is defined,
    [isPageLocked] answers false whatever the device reports. *)
Theorem isPageLocked_eprom_blind_from_page_8 self page w w1 c status rest :
  isEPROMDevice self = true ->
  isPageValid self page = true ->
  8 <= page < 16 ->
  isConnected self w = (true, w1) ->
  rx w1 = c :: status :: rest ->
  u8 c = u8 (crc8 [READSTATUS; 0x00; 0x00]) ->
  fst (isPageLocked crc8 self page w) = false.
Proof.
  intros He Hv Hp Hc Hrx Hcrc.
  rewrite (isPageLocked_eprom_run self page w w1 c status rest He Hv Hc Hrx
             Hcrc).
  cbn [fst]. rewrite bit_of_status by lia.
  unfold u8. change 256 with (2 ^ 8). apply Z.mod_pow2_bits_high. lia.
Qed.

(** ** lockPage and isPageLocked on an EEPROM *)

Lemma status_offset_range self page :
  0 <= page < pages (chip (_curModelIndex self)) ->
  0 <= pages (chip (_curModelIndex self)) * 32 + page < 65536.
Proof.
  intros H. pose proof (chip_pages_bound (_curModelIndex self)). lia.
Qed.

(** X24.  On an EEPROM, [isPageLocked] is true exactly when the byte the device
    delivers after the read command is 0x55; nothing else is read. *)
Theorem isPageLocked_eeprom_sentinel self page w w1 :
  0 <= _curModelIndex self ->
  isEPROMDevice self = false ->
  0 <= page < pages (chip (_curModelIndex self)) ->
  isConnected self w = (true, w1) ->
  fst (isPageLocked crc8 self page w) = (u8 (hd 0xFF (rx w1)) =? 0x55) /\
  rx (snd (isPageLocked crc8 self page w)) = tl (rx w1).
Proof.
  intros Hi He Hp Hc. unfold isPageLocked, bind.
  rewrite (page_in_range_valid self page Hi) by lia. cbn [negb].
  rewrite Hc. cbn [negb]. rewrite He. bus.
  destruct (u8 (hd 255 (rx w1)) =? 85); split; reflexivity.
Qed.

(** X25.  On an EEPROM, [lockPage] stages the sentinel 0x55 at offset
    [pages * 32 + page], and [isPageLocked] reads at the same offset. *)
Theorem eeprom_lock_offset_agrees self page w w1 :
  0 <= _curModelIndex self ->
  isEPROMDevice self = false ->
  0 <= page < pages (chip (_curModelIndex self)) ->
  isConnected self w = (true, w1) ->
  (exists tail,
     log (snd (lockPage crc8 literals_merged self page w)) =
       log w1
       ++ [EvReset; EvSelect (_addr self);
           EvReset; EvSelect (_addr self); EvWrite WRITEMEMORY false;
           EvWrite ((pages (chip (_curModelIndex self)) * 32 + page) mod 256)
             false;
           EvWrite ((pages (chip (_curModelIndex self)) * 32 + page) / 256)
             false;
           EvWrite 0x55 false]
       ++ tail) /\
  log (snd (isPageLocked crc8 self page w)) =
    log w1
    ++ [EvReset; EvSelect (_addr self); EvWrite READMEMORY false;
        EvWrite ((pages (chip (_curModelIndex self)) * 32 + page) mod 256)
          false;
        EvWrite ((pages (chip (_curModelIndex self)) * 32 + page) / 256) false;
        EvRead (u8 (hd 0xFF (rx w1)))].
Proof.
  intros Hi He Hp Hc.
  pose proof (status_offset_range self page Hp) as Hoff.
  pose proof (page_in_range_valid self page Hi (proj2 Hp)) as Hv.
  split.
  - unfold lockPage, bind.
    rewrite Hv. cbn [negb]. rewrite Hc. cbn [negb]. rewrite He. bus.
    rewrite uint_small by exact Hoff.
    match goal with
    | |- context [scratchWrite literals_merged self ?d ?l ?a ?w2] =>
        destruct (scratchWrite_log_prefix literals_merged self d l a w2)
          as [tail Ht];
        destruct (scratchWrite literals_merged self d l a w2) as [status w3]
    end.
    cbn [snd log emit] in Ht. bus. exists tail. rewrite Ht.
    rewrite (high_byte_small _ Hoff).
    rewrite <- !app_assoc. reflexivity.
  - unfold isPageLocked, bind.
    rewrite Hv. cbn [negb]. rewrite Hc. cbn [negb]. rewrite He. bus.
    rewrite uint_small by exact Hoff. rewrite !u8_idem.
    rewrite (high_byte_small _ Hoff).
    destruct (u8 (hd 255 (rx w1)) =? 85); bus;
      rewrite <- !app_assoc; reflexivity.
Qed.

(** ** The scratchpad sub-protocol, when it goes through *)

(** X26.  For a model other than the DS2430, when the scratchpad echoes every
    byte sent, [scratchWrite] commits with the three auth bytes it has just
    read, the last of them with the bus left powered, waits 10 ms, depowers
    and reads one byte: the result is 0 when that byte is 0xAA and
    [COPY_FAILURE] otherwise. *)
Theorem scratchWrite_commit self data len address w a0 a1 a2 done rest :
  name (chip (_curModelIndex self)) <> Some "DS2430"%string ->
  rx w = a0 :: a1 :: a2
         :: map (byte_at data) (seq 0 (Z.to_nat len)) ++ done :: rest ->
  fst (scratchWrite literals_merged self data len address w) =
    (if u8 done =? 0xAA then 0 else COPY_FAILURE) /\
  rx (snd (scratchWrite literals_merged self data len address w)) = rest /\
  log (snd (scratchWrite literals_merged self data len address w)) =
    log w
    ++ [EvReset; EvSelect (_addr self); EvWrite WRITEMEMORY false;
        EvWrite (u8 address) false; EvWrite (u8 (Z.shiftr address 8)) false]
    ++ sent data 0 (Z.to_nat len)
    ++ [EvReset; EvSelect (_addr self); EvWrite READSTATUS false;
        EvRead (u8 a0); EvRead (u8 a1); EvRead (u8 a2)]
    ++ map EvRead (map (byte_at data) (seq 0 (Z.to_nat len)))
    ++ [EvReset; EvSelect (_addr self); EvWrite WRITESTATUS false;
        EvWrite (u8 a0) false; EvWrite (u8 a1) false; EvWrite (u8 a2) true;
        EvDelay 10; EvDepower; EvRead (u8 done)].
Proof.
  intros Hname Hrx.
  unfold scratchWrite, bind. bus. rewrite scratch_send_spec. bus.
  rewrite (name_is_not_DS2430 literals_merged _ Hname). bus.
  cbn [ow_read_bytes]. unfold bind. bus. rewrite Hrx. bus.
  rewrite (scratch_verify_match data (Z.to_nat len) 0%nat _ (done :: rest))
    by reflexivity.
  bus. unfold delay, ow_depower, emit. bus.
  rewrite !u8_idem, <- !app_assoc.
  destruct (u8 done =? 170); (split; [ reflexivity | ]); split; reflexivity.
Qed.

(** X27.  When the compiler makes one object of the two ["DS2430"] literals, the
    commit on a DS2430 is not verified: [scratchWrite] sends the data, then
    [{WRITESTATUS, VERIFYRESUME}], and returns 0 without reading a single
    byte from the device. *)
Theorem scratchWrite_DS2430_unverified self data len address w :
  literals_merged = true ->
  name (chip (_curModelIndex self)) = Some "DS2430"%string ->
  fst (scratchWrite literals_merged self data len address w) = 0 /\
  rx (snd (scratchWrite literals_merged self data len address w)) = rx w /\
  log (snd (scratchWrite literals_merged self data len address w)) =
    log w
    ++ [EvReset; EvSelect (_addr self); EvWrite WRITEMEMORY false;
        EvWrite (u8 address) false; EvWrite (u8 (Z.shiftr address 8)) false]
    ++ sent data 0 (Z.to_nat len)
    ++ [EvReset; EvSelect (_addr self); EvWrite WRITESTATUS false;
        EvWrite VERIFYRESUME false; EvDelay 10; EvDepower].
Proof.
  intros Hmerged Hname.
  assert (name_is_DS2430 literals_merged (chip (_curModelIndex self)) = true)
    as Hyes by (unfold name_is_DS2430; rewrite Hname, Hmerged; reflexivity).
  unfold scratchWrite, bind. bus. rewrite scratch_send_spec. bus.
  rewrite Hyes. bus. unfold delay, ow_depower, emit. bus.
  rewrite !u8_idem, <- !app_assoc.
  split; [ reflexivity | ]. split; reflexivity.
Qed.

End Coverage.

(** * The further properties at concrete inputs *)

Lemma rom_DS2502_is_rom : is_rom rom_DS2502.
Proof. split; [ reflexivity | repeat (constructor; [ lia | ]); constructor ]. Defined.

Lemma rom_DS2505_is_rom : is_rom rom_DS2505.
Proof. split; [ reflexivity | repeat (constructor; [ lia | ]); constructor ]. Defined.

Lemma memcmp8_eq_iff_witness :
  memcmp8_eq rom_DS2502 rom_DS2505 = true <-> rom_DS2502 = rom_DS2505.
Proof.
  exact (memcmp8_eq_iff rom_DS2502 rom_DS2505 rom_DS2502_is_rom
           rom_DS2505_is_rom).
Defined.

Lemma search_true_selects_first_supported_witness :
  isSupported (_addr (snd (fst (search (session_for rom_DS2401) steady_bus))))
    = true /\
  0 <= _curModelIndex (snd (fst (search (session_for rom_DS2401) steady_bus)))
    < 5.
Proof.
  destruct (search_true_selects_first_supported (session_for rom_DS2401)
              steady_bus eq_refl) as [_ [_ [Hsup [Hrange _]]]].
  split; [ exact Hsup | exact Hrange ].
Defined.

Lemma search_then_isConnected_witness :
  fst (isConnected (snd (fst (search (session_for rom_DS2401) steady_bus)))
         (snd (search (session_for rom_DS2401) steady_bus))) = true.
Proof.
  apply (search_then_isConnected (session_for rom_DS2401) steady_bus);
    reflexivity.
Defined.

Lemma rejected_page_no_traffic_witness :
  readPage dallas_crc8 (session_for rom_DS2401) [] 0 idle_bus
    = (INVALID_PAGE, [], idle_bus) /\
  writePage dallas_crc8 true (session_for rom_DS2401) [] 0 idle_bus
    = (INVALID_PAGE, idle_bus) /\
  lockPage dallas_crc8 true (session_for rom_DS2401) 0 idle_bus
    = (INVALID_PAGE, idle_bus) /\
  snd (isPageLocked dallas_crc8 (session_for rom_DS2401) 0 idle_bus) = idle_bus.
Proof.
  apply (rejected_page_no_traffic dallas_crc8 true (session_for rom_DS2401) []
           0 idle_bus).
  reflexivity.
Defined.

Lemma disconnected_device_status_witness :
  readPage dallas_crc8 (session_for rom_DS2431) [] 0 idle_bus
    = (DEVICE_DISCONNECTED, [], found (session_for rom_DS2431) idle_bus) /\
  writePage dallas_crc8 true (session_for rom_DS2431) [] 0 idle_bus
    = (DEVICE_DISCONNECTED, found (session_for rom_DS2431) idle_bus) /\
  lockPage dallas_crc8 true (session_for rom_DS2431) 0 idle_bus
    = (DEVICE_DISCONNECTED, found (session_for rom_DS2431) idle_bus) /\
  rx (found (session_for rom_DS2431) idle_bus) = rx idle_bus.
Proof.
  apply (disconnected_device_status dallas_crc8 true (session_for rom_DS2431)
           [] 0 idle_bus); reflexivity.
Defined.

Lemma readPage_eeprom_witness :
  fst (readPage dallas_crc8 (session_for rom_DS2431) (repeat 0 32) 1
         (bus_answering rom_DS2431 [0x01; 0x02; 0x03]))
    = (0, [0x01; 0x02; 0x03] ++ repeat 0xFF 29).
Proof.
  rewrite (readPage_eeprom dallas_crc8 (session_for rom_DS2431) (repeat 0 32)
             1 (bus_answering rom_DS2431 [0x01; 0x02; 0x03])
             (found (session_for rom_DS2431)
                (bus_answering rom_DS2431 [0x01; 0x02; 0x03]))).
  - reflexivity.
  - change (0 <= 3). lia.
  - reflexivity.
  - change (0 <= 1 < 4). lia.
  - reflexivity.
Defined.

Lemma readPage_eprom_status_crc_mismatch_witness :
  fst (readPage dallas_crc8 (session_for rom_DS2502) [] 0
         (bus_answering rom_DS2502 [0x00]))
    = (CRC_MISMATCH, []).
Proof.
  apply (readPage_eprom_status_crc_mismatch dallas_crc8
           (session_for rom_DS2502) [] 0 (bus_answering rom_DS2502 [0x00])
           (found (session_for rom_DS2502) (bus_answering rom_DS2502 [0x00]))).
  - reflexivity.
  - reflexivity.
  - reflexivity.
  - vm_compute. discriminate.
Defined.

Lemma writePage_eprom_success_witness :
  fst (writePage dallas_crc8 true (session_for rom_DS2502) page_1_to_32 0
         burning_bus) = 0 /\
  rx (snd (writePage dallas_crc8 true (session_for rom_DS2502) page_1_to_32 0
             burning_bus)) = [].
Proof.
  apply (writePage_eprom_success dallas_crc8 true (fun _ => 0x00)
           (session_for rom_DS2502) page_1_to_32 0 burning_bus
           (found (session_for rom_DS2502) burning_bus)
           (dallas_crc8 [WRITEMEMORY; 0x00; 0x00; 0x01]) []).
  - reflexivity.
  - change (0 <= 0 < 4). lia.
  - reflexivity.
  - reflexivity.
  - reflexivity.
Defined.

Lemma writePage_eprom_crc_mismatch_witness :
  fst (writePage dallas_crc8 true (session_for rom_DS2502) page_1_to_32 0
         (bus_answering rom_DS2502 [])) = CRC_MISMATCH.
Proof.
  apply (writePage_eprom_crc_mismatch dallas_crc8 true
           (session_for rom_DS2502) page_1_to_32 0
           (bus_answering rom_DS2502 [])
           (found (session_for rom_DS2502) (bus_answering rom_DS2502 []))).
  - reflexivity.
  - reflexivity.
  - reflexivity.
  - vm_compute. discriminate.
Defined.

Lemma writePage_eprom_copy_failure_witness :
  fst (writePage dallas_crc8 true (session_for rom_DS2502) page_1_to_32 0
         failing_burn_bus) = COPY_FAILURE /\
  rx (snd (writePage dallas_crc8 true (session_for rom_DS2502) page_1_to_32 0
             failing_burn_bus)) = [0x77].
Proof.
  apply (writePage_eprom_copy_failure dallas_crc8 true (fun _ => 0x00)
           (session_for rom_DS2502) page_1_to_32 0 failing_burn_bus
           (found (session_for rom_DS2502) failing_burn_bus)
           (dallas_crc8 [WRITEMEMORY; 0x00; 0x00; 0x01]) 2%nat 0x00 0x00
           [0x77]).
  - reflexivity.
  - change (0 <= 0 < 4). lia.
  - reflexivity.
  - lia.
  - reflexivity.
  - reflexivity.
  - vm_compute. discriminate.
Defined.

Lemma writePage_eprom_first_byte_failure_witness :
  fst (writePage dallas_crc8 true (session_for rom_DS2502) page_1_to_32 0
         (bus_answering rom_DS2502
            [dallas_crc8 [WRITEMEMORY; 0x00; 0x00; 0x01]; 0x00]))
    = COPY_FAILURE.
Proof.
  apply (writePage_eprom_first_byte_failure dallas_crc8 true
           (session_for rom_DS2502) page_1_to_32 0
           (bus_answering rom_DS2502
              [dallas_crc8 [WRITEMEMORY; 0x00; 0x00; 0x01]; 0x00])
           (found (session_for rom_DS2502)
              (bus_answering rom_DS2502
                 [dallas_crc8 [WRITEMEMORY; 0x00; 0x00; 0x01]; 0x00]))
           (dallas_crc8 [WRITEMEMORY; 0x00; 0x00; 0x01]) 0x00 []).
  - reflexivity.
  - reflexivity.
  - reflexivity.
  - reflexivity.
  - reflexivity.
  - vm_compute. discriminate.
Defined.

Lemma lockPage_eprom_outcome_witness :
  fst (lockPage dallas_crc8 true (session_for rom_DS2502) 2
         (bus_answering rom_DS2502 [dallas_crc8 [WRITESTATUS; 0; 0; 4]])) = 0.
Proof.
  destruct (lockPage_eprom_outcome dallas_crc8 true (session_for rom_DS2502) 2
              (bus_answering rom_DS2502 [dallas_crc8 [WRITESTATUS; 0; 0; 4]])
              (found (session_for rom_DS2502)
                 (bus_answering rom_DS2502
                    [dallas_crc8 [WRITESTATUS; 0; 0; 4]]))
              eq_refl eq_refl eq_refl) as [Hstatus _].
  exact Hstatus.
Defined.

Lemma lockPage_eprom_single_bit_witness :
  exists tail,
    log (snd (lockPage dallas_crc8 true (session_for rom_DS2502) 2
                (bus_answering rom_DS2502 []))) =
      log (found (session_for rom_DS2502) (bus_answering rom_DS2502 []))
      ++ [EvReset; EvSelect rom_DS2502; EvWrite WRITESTATUS false;
          EvWrite 0x00 false; EvWrite 0x00 false; EvWrite 4 false]
      ++ tail.
Proof.
  apply (lockPage_eprom_single_bit dallas_crc8 true (session_for rom_DS2502) 2
           (bus_answering rom_DS2502 [])
           (found (session_for rom_DS2502) (bus_answering rom_DS2502 []))).
  - reflexivity.
  - reflexivity.
  - lia.
  - reflexivity.
Defined.

Lemma isPageLocked_eprom_bit_witness :
  fst (isPageLocked dallas_crc8 (session_for rom_DS2502) 2
         (bus_answering rom_DS2502
            [dallas_crc8 [READSTATUS; 0; 0]; 0x04])) = true.
Proof.
  destruct (isPageLocked_eprom_bit dallas_crc8 (session_for rom_DS2502) 2
              (bus_answering rom_DS2502
                 [dallas_crc8 [READSTATUS; 0; 0]; 0x04])
              (found (session_for rom_DS2502)
                 (bus_answering rom_DS2502
                    [dallas_crc8 [READSTATUS; 0; 0]; 0x04]))
              (dallas_crc8 [READSTATUS; 0; 0]) 0x04 [])
    as [Hbit _].
  - reflexivity.
  - change (0 <= 2 < 4). lia.
  - lia.
  - reflexivity.
  - reflexivity.
  - reflexivity.
  - exact Hbit.
Defined.

Lemma isPageLocked_eprom_blind_from_page_8_witness :
  fst (isPageLocked dallas_crc8 (session_for rom_DS2505) 8
         (bus_answering rom_DS2505
            [dallas_crc8 [READSTATUS; 0; 0]; 0xFF])) = false.
Proof.
  apply (isPageLocked_eprom_blind_from_page_8 dallas_crc8
           (session_for rom_DS2505) 8
           (bus_answering rom_DS2505 [dallas_crc8 [READSTATUS; 0; 0]; 0xFF])
           (found (session_for rom_DS2505)
              (bus_answering rom_DS2505
                 [dallas_crc8 [READSTATUS; 0; 0]; 0xFF]))
           (dallas_crc8 [READSTATUS; 0; 0]) 0xFF []).
  - reflexivity.
  - reflexivity.
  - lia.
  - reflexivity.
  - reflexivity.
  - reflexivity.
Defined.

Lemma isPageLocked_eeprom_sentinel_witness :
  fst (isPageLocked dallas_crc8 (session_for rom_DS2431) 0
         (bus_answering rom_DS2431 [0x55])) = true.
Proof.
  destruct (isPageLocked_eeprom_sentinel dallas_crc8 (session_for rom_DS2431)
              0 (bus_answering rom_DS2431 [0x55])
              (found (session_for rom_DS2431)
                 (bus_answering rom_DS2431 [0x55])))
    as [Hres _].
  - change (0 <= 3). lia.
  - reflexivity.
  - change (0 <= 0 < 4). lia.
  - reflexivity.
  - exact Hres.
Defined.

Lemma eeprom_lock_offset_agrees_witness :
  log (snd (isPageLocked dallas_crc8 (session_for rom_DS2431) 0
              corrupting_bus)) =
    log (found (session_for rom_DS2431) corrupting_bus)
    ++ [EvReset; EvSelect rom_DS2431; EvWrite READMEMORY false;
        EvWrite 128 false; EvWrite 0 false; EvRead 0x01].
Proof.
  destruct (eeprom_lock_offset_agrees dallas_crc8 true
              (session_for rom_DS2431) 0 corrupting_bus
              (found (session_for rom_DS2431) corrupting_bus))
    as [_ Hread].
  - change (0 <= 3). lia.
  - reflexivity.
  - change (0 <= 0 < 4). lia.
  - reflexivity.
  - exact Hread.
Defined.

Lemma scratchWrite_commit_witness :
  fst (scratchWrite true (session_for rom_DS2431) [0x55] 1 128
         (bus_answering rom_DS2431 [0x01; 0x02; 0x03; 0x55; 0xAA])) = 0.
Proof.
  destruct (scratchWrite_commit true (session_for rom_DS2431) [0x55] 1 128
              (bus_answering rom_DS2431 [0x01; 0x02; 0x03; 0x55; 0xAA])
              0x01 0x02 0x03 0xAA [])
    as [Hstatus _].
  - discriminate.
  - reflexivity.
  - exact Hstatus.
Defined.

Lemma scratchWrite_DS2430_unverified_witness :
  fst (scratchWrite true (session_for rom_DS2430) [0x55] 1 32 idle_bus) = 0 /\
  rx (snd (scratchWrite true (session_for rom_DS2430) [0x55] 1 32 idle_bus))
    = rx idle_bus.
Proof.
  destruct (scratchWrite_DS2430_unverified true (session_for rom_DS2430)
              [0x55] 1 32 idle_bus eq_refl eq_refl) as [Hstatus [Hrx _]].
  split; [ exact Hstatus | exact Hrx ].
Defined.
